(** * Product list with cart: the cart controller of [src/index.ts]

    A shallow embedding of the click handlers of the product-list page and
    of the functions they call ([addToCart], [updateButtonState],
    [resetButtonState], [findProductCardById], [updateCart],
    [showConfirmationModal], [resetOrder]), followed by the properties of the
    cart that the specification states.

    Conventions of the model.
    - A JavaScript string is a [string]: a sequence of code units below 256.
    - A price is a JavaScript number, that is an IEEE 754 binary64 value: a
      primitive [float], with the machine's addition and multiplication.
    - A quantity is a JavaScript number that only ever holds an integer
      (it starts at 1 and moves by [++] and [--]); it is an integer of [Z],
      which is exact below 2^53.
    - The page is a record of the parts of the DOM the script reads and
      writes; the markup a template literal produces is kept as the tuple of
      the values it interpolates. *)

From Stdlib Require Import ZArith List String Ascii Bool Lia Floats.
Import ListNotations.

Open Scope string_scope.
Open Scope list_scope.
Open Scope Z_scope.

(** ** The built-in functions the script calls *)

Module JS.

(** *** Strings *)

(** [strip_prefix pat s] is the rest of [s] after a leading [pat]. *)
Fixpoint strip_prefix (pat s : string) : option string :=
  match pat, s with
  | EmptyString, _ => Some s
  | String _ _, EmptyString => None
  | String a pat', String b s' =>
      if Ascii.eqb a b then strip_prefix pat' s' else None
  end.

(** [s.replace(pat, '')] with a string pattern: the first occurrence of
    [pat] in [s], scanning from the left, is removed; a string without
    [pat] is returned as it is. *)
Fixpoint replace (pat s : string) : string :=
  match strip_prefix pat s with
  | Some rest => rest
  | None =>
      match s with
      | EmptyString => EmptyString
      | String c s' => String c (replace pat s')
      end
  end.

(** [s.includes(pat)] *)
Fixpoint includes (pat s : string) : bool :=
  match strip_prefix pat s with
  | Some _ => true
  | None =>
      match s with
      | EmptyString => false
      | String _ s' => includes pat s'
      end
  end.

(** Whether an occurrence of [pat] in [a ++ rest] starts inside [a]. *)
Fixpoint starts_within (pat a rest : string) : bool :=
  match a with
  | EmptyString => false
  | String _ a' =>
      match strip_prefix pat (a ++ rest) with
      | Some _ => true
      | None => starts_within pat a' rest
      end
  end.

(** White space and line terminators among the code units below 256:
    TAB, LF, VT, FF, CR, SP and NBSP. *)
Definition is_space (c : ascii) : bool :=
  let n := nat_of_ascii c in
  ((9 <=? n)%nat && (n <=? 13)%nat) || (n =? 32)%nat || (n =? 160)%nat.

Fixpoint trimStart (s : string) : string :=
  match s with
  | EmptyString => EmptyString
  | String c s' => if is_space c then trimStart s' else s
  end.

Fixpoint trimEnd (s : string) : string :=
  match s with
  | EmptyString => EmptyString
  | String c s' =>
      match trimEnd s' with
      | EmptyString => if is_space c then EmptyString else String c EmptyString
      | t => String c t
      end
  end.

(** [s.trim()] *)
Definition trim (s : string) : string := trimEnd (trimStart s).

(** [classList.contains(cls)] *)
Definition contains (classList : list string) (cls : string) : bool :=
  existsb (String.eqb cls) classList.

(** *** Numbers *)

(** The binary64 value nearest to an integer (ties to even). *)
Definition of_Z (z : Z) : float :=
  SF2Prim (binary_normalize prec emax z 0 false).

(** The binary64 value nearest to [m / 10^k] for [m > 0]: the quotient is
    taken with at least 70 significant bits and the remainder is kept as a
    sticky last bit, so that the final rounding sees the exact position of
    the quotient between two neighbours. *)
Definition of_ratio_pow10 (m k : Z) : float :=
  let d := 10 ^ k in
  let s := Z.max 0 (Z.log2 d - Z.log2 m + 70) in
  let q := Z.shiftl m s / d in
  let r := Z.shiftl m s mod d in
  let sticky := if r =? 0 then 0 else 1 in
  SF2Prim (binary_normalize prec emax (2 * q + sticky) (- (s + 1)) false).

(** The binary64 value nearest to [m * 10^e], for [m >= 0].  Beyond
    [10^400] the value is infinite, and [m / 10^k] with [m < 10^(k-324)] is
    below half the least positive binary64 value and rounds to zero; both
    are settled before any power of ten is computed. *)
Definition of_decimal (m e : Z) : float :=
  if m =? 0 then zero
  else if 0 <=? e then
    if 400 <? e then infinity else of_Z (m * 10 ^ e)
  else
    let k := - e in
    if 324 <=? k - (Z.log2 m / 3 + 1) then zero
    else of_ratio_pow10 m k.

Definition digit_of (c : ascii) : option Z :=
  let n := Z.of_nat (nat_of_ascii c) in
  if (48 <=? n) && (n <=? 57) then Some (n - 48) else None.

(** The longest run of decimal digits at the head of [s], read on top of
    the digits [acc] already seen: the number read, how many digits were
    added, and the rest of the string. *)
Fixpoint digits (s : string) (acc n : Z) : Z * Z * string :=
  match s with
  | EmptyString => (acc, n, s)
  | String c s' =>
      match digit_of c with
      | Some d => digits s' (10 * acc + d) (n + 1)
      | None => (acc, n, s)
      end
  end.

(** ExponentPart at the head of [s], when there is a complete one:
    [e] or [E], an optional sign, at least one digit.  Otherwise 0. *)
Definition exponent_part (s : string) : Z :=
  match s with
  | String c r =>
      if Ascii.eqb c "e" || Ascii.eqb c "E" then
        let '(neg, r') :=
          match r with
          | String "+" t => (false, t)
          | String "-" t => (true, t)
          | _ => (false, r)
          end in
        let '(v, n, _) := digits r' 0 0 in
        if n =? 0 then 0 else if neg then - v else v
      else 0
  | EmptyString => 0
  end.

(** The longest prefix of [s] that is a StrUnsignedDecimalLiteral
    ([Infinity], [d+ . d* exp?], [. d+ exp?] or [d+ exp?]) and its value;
    [None] when no prefix is one. *)
Definition unsigned_literal (s : string) : option float :=
  match strip_prefix "Infinity" s with
  | Some _ => Some infinity
  | None =>
      let '(m1, n1, r1) := digits s 0 0 in
      let '(m, nf, r2) :=
        match r1 with
        | String "." r =>
            let '(m2, n2, r') := digits r m1 0 in
            if (n1 =? 0) && (n2 =? 0) then (m1, 0, r1) else (m2, n2, r')
        | _ => (m1, 0, r1)
        end in
      if (n1 =? 0) && (nf =? 0) then None
      else Some (of_decimal m (exponent_part r2 - nf))
  end.

(** [parseFloat(s)]: leading white space is skipped, the longest prefix
    that is a StrDecimalLiteral is read, and the result is [NaN] when there
    is none. *)
Definition parseFloat (s : string) : float :=
  let t := trimStart s in
  let '(neg, u) :=
    match t with
    | String "+" r => (false, r)
    | String "-" r => (true, r)
    | _ => (false, t)
    end in
  match unsigned_literal u with
  | None => nan
  | Some x => if neg then (- x)%float else x
  end.

(** Truthiness of a number: [0], [-0] and [NaN] are falsy. *)
Definition truthy_number (x : float) : bool :=
  negb (is_nan x || is_zero x).

End JS.

(** ** The data model *)

(** [type CartItem] *)
Record CartItem := {
  id : string;
  name : string;
  price : float;
  quantity : Z;
  image : option string
}.

(** The value of an inline [style.display]. *)
Inductive Display := display_unset | display_none | display_block | display_flex.

(** The URL of the first image inside the quantity selector that
    [updateButtonState] builds. *)
Definition decrement_icon : string :=
  "https://raw.githubusercontent.com/danielphilipjohnson/product-list-with-cart-vanilla-js/main/images/icon-decrement-quantity.svg".

(** A product card ([.card]) of the page, by what the script reads and
    writes in it; cards are not nested in one another.  The quantity
    selector is the script's own element: a card has one only after
    [updateButtonState] appended it, as the last child of the card. *)
Record Card := {
  cart_name : option string;        (* text of [.cart-name]; [None]: no such element *)
  card_price : option string;       (* text of [.card-price]; [None]: no such element *)
  img : option string;              (* [src] of the first [img] of the card's markup; [None]: no [img] *)
  button : option Display;          (* [style.display] of [.button]; [None]: no such element *)
  quantity_selector : option Z      (* the number shown in [.quantity-text]; [None]: no [.quantity-selector] *)
}.

(** [x.toFixed(digits)], kept as the number and the number of digits. *)
Record Fixed := toFixed { number : float; fractionDigits : nat }.

(** A [.cart-item] of the cart panel, by the values interpolated in it.
    The last field is the text the template writes between the quotes of
    [data-id="..."], not the attribute of the page: the text goes through
    [innerHTML] unescaped, and the attribute the parser reads from it is
    another string when the id holds a double quote or an ampersand.  No
    property below speaks of it, and the listener of the cart section takes
    the [dataset.id] of the control clicked as an input of its own. *)
Record CartRow := {
  row_name : string;            (* [.item-name] *)
  row_quantity : Z;             (* [.item-quantity], followed by [x] *)
  row_price_per : Fixed;        (* [.item-price-per] *)
  row_price_total : Fixed;      (* [.item-price-total] *)
  row_data_id_written : string  (* the text written for [data-id] *)
}.

(** A [.modal-cart-item] of the confirmation modal. *)
Record ModalRow := {
  modal_img_src : string;
  modal_item_name : string;
  modal_item_quantity : Z;
  modal_item_price_per : Fixed;
  modal_item_total_price : Fixed
}.

(** The content of the cart section ([.card10]).  The markup of the page
    may hold a [.cart] element; the markup the script writes holds none. *)
Inductive CartSection :=
| PageMarkup (cart_el : option bool)
    (* the page's own markup; [Some b]: it has a [.cart] child, and [b]
       tells whether that child holds the empty-cart message *)
| EmptyCart
    (* the empty-cart message: [Your Cart (0)] *)
| CartList (totalItems : Z) (items : list CartRow) (totalPrice : Fixed).
    (* [Your Cart (totalItems)], the rows, the order total and the
       [.confirm-order-btn] *)

(** An element the script looks up and fills: absent from the page, there
    with the page's own content, or there with what the script wrote. *)
Inductive Slot (A : Type) := Missing | Untouched | Written (a : A).
Arguments Missing {A}.
Arguments Untouched {A}.
Arguments Written {A} a.

(** The modal overlay ([.modal-overlay]). *)
Record Modal := {
  modal_order_summary : Slot (list ModalRow);   (* [.modal-order-summary] *)
  modal_total_price : Slot Fixed;               (* [.modal-total-price], after [$] *)
  modal_display : Display
}.

(** The state the handlers close over: the [cart] variable and the page. *)
Record State := {
  cart : list CartItem;
  cards : list Card;
  cartSection : CartSection;
  modalOverlay : Modal
}.

Definition set_cart (c : list CartItem) (st : State) : State :=
  {| cart := c; cards := cards st; cartSection := cartSection st;
     modalOverlay := modalOverlay st |}.

Definition set_cards (cs : list Card) (st : State) : State :=
  {| cart := cart st; cards := cs; cartSection := cartSection st;
     modalOverlay := modalOverlay st |}.

Definition set_cartSection (p : CartSection) (st : State) : State :=
  {| cart := cart st; cards := cards st; cartSection := p;
     modalOverlay := modalOverlay st |}.

Definition set_modalOverlay (m : Modal) (st : State) : State :=
  {| cart := cart st; cards := cards st; cartSection := cartSection st;
     modalOverlay := m |}.

(** The list with its [i]th element replaced by its image under [f]. *)
Fixpoint update_nth {A : Type} (i : nat) (f : A -> A) (l : list A) : list A :=
  match l, i with
  | [], _ => []
  | x :: l', O => f x :: l'
  | x :: l', S i' => x :: update_nth i' f l'
  end.

(** A mutation of the card at index [i] of [document.querySelectorAll('.card')]. *)
Definition with_card (i : nat) (f : Card -> Card) (st : State) : State :=
  set_cards (update_nth i f (cards st)) st.

(** A mutation of the first item that satisfies [p]: what an assignment to
    a field of [cart.find(p)] does to the cart. *)
Fixpoint update_found (p : CartItem -> bool) (f : CartItem -> CartItem)
    (l : list CartItem) : list CartItem :=
  match l with
  | [] => []
  | x :: l' => if p x then f x :: l' else x :: update_found p f l'
  end.

Definition set_quantity (q : Z) (item : CartItem) : CartItem :=
  {| id := id item; name := name item; price := price item; quantity := q;
     image := image item |}.

(** [item => item.id === cardId] *)
Definition has_id (cardId : string) (item : CartItem) : bool :=
  (id item =? cardId)%string.

(** [item => item.id !== cardId] *)
Definition has_other_id (cardId : string) (item : CartItem) : bool :=
  negb (id item =? cardId)%string.

(** ** The functions of the script *)

(** [card.querySelector('.cart-name')?.textContent?.trim()] *)
Definition card_id (card : Card) : option string :=
  option_map JS.trim (cart_name card).

(** [productCard.querySelector('img')]: the first image of the card, which
    is the decrement icon of the quantity selector when the card's markup
    has no image and a selector has been appended. *)
Definition querySelector_img (card : Card) : option string :=
  match img card with
  | Some src => Some src
  | None =>
      match quantity_selector card with
      | Some _ => Some decrement_icon
      | None => None
      end
  end.

(** [parseFloat(productPriceText.replace('$', '')) || 0] *)
Definition productPrice (productPriceText : string) : float :=
  let x := JS.parseFloat (JS.replace "$" productPriceText) in
  if JS.truthy_number x then x else 0%float.

(** [imgEl?.src ? imgEl.src.replace('-desktop', '') : undefined] *)
Definition productImage (imgEl : option string) : option string :=
  match imgEl with
  | Some src =>
      if (src =? "")%string then None else Some (JS.replace "-desktop" src)
  | None => None
  end.

Definition cart_row (item : CartItem) : CartRow :=
  {| row_name := name item;
     row_quantity := quantity item;
     row_price_per := toFixed (price item) 2;
     row_price_total := toFixed (price item * JS.of_Z (quantity item)) 2;
     row_data_id_written := id item |}.

(** [updateCart]: the callback of [cart.map] adds to [totalItems] and
    [totalPrice] as it builds the row of each item. *)
Definition updateCart (st : State) : State :=
  match cart st with
  | [] =>
      match cartSection st with
      | PageMarkup (Some _) => set_cartSection (PageMarkup (Some true)) st
      | _ => set_cartSection EmptyCart st
      end
  | _ :: _ =>
      let '(totalItems, totalPrice, cartItemsHtml) :=
        fold_left
          (fun '(totalItems, totalPrice, rows) item =>
             (totalItems + quantity item,
              (totalPrice + price item * JS.of_Z (quantity item))%float,
              rows ++ [cart_row item]))
          (cart st) (0, 0%float, []) in
      set_cartSection (CartList totalItems cartItemsHtml (toFixed totalPrice 2)) st
  end.

(** [addToCart(productCard)], for the card at index [i]. *)
Definition addToCart (i : nat) (st : State) : State :=
  match nth_error (cards st) i with
  | None => st
  | Some productCard =>
      match card_id productCard with
      | None => st
      | Some id_ =>
          if (id_ =? "")%string then st
          else
            let productPriceText :=
              match card_price productCard with Some t => t | None => "" end in
            let item :=
              {| id := id_; name := id_;
                 price := productPrice productPriceText;
                 quantity := 1;
                 image := productImage (querySelector_img productCard) |} in
            updateCart (set_cart (cart st ++ [item]) st)
      end
  end.

Definition updateButtonState (quantity : Z) (productCard : Card) : Card :=
  match quantity_selector productCard with
  | None =>
      {| cart_name := cart_name productCard;
         card_price := card_price productCard;
         img := img productCard;
         button := option_map (fun _ => display_none) (button productCard);
         quantity_selector := Some quantity |}
  | Some _ =>
      {| cart_name := cart_name productCard;
         card_price := card_price productCard;
         img := img productCard;
         button := button productCard;
         quantity_selector := Some quantity |}
  end.

Definition resetButtonState (productCard : Card) : Card :=
  {| cart_name := cart_name productCard;
     card_price := card_price productCard;
     img := img productCard;
     button := option_map (fun _ => display_block) (button productCard);
     quantity_selector := None |}.

(** The index of the first element that satisfies [p]. *)
Fixpoint find_index {A : Type} (p : A -> bool) (l : list A) : option nat :=
  match l with
  | [] => None
  | x :: l' => if p x then Some O else option_map S (find_index p l')
  end.

(** [findProductCardById(productId)] *)
Definition findProductCardById (productId : string) (st : State) : option nat :=
  find_index
    (fun card =>
       match card_id card with
       | Some t => (t =? productId)%string
       | None => false
       end)
    (cards st).

Definition modal_row (item : CartItem) : ModalRow :=
  let itemTotal := (price item * JS.of_Z (quantity item))%float in
  {| modal_img_src := match image item with Some src => src | None => "" end;
     modal_item_name := name item;
     modal_item_quantity := quantity item;
     modal_item_price_per := toFixed (price item) 2;
     modal_item_total_price := toFixed itemTotal 2 |}.

Definition showConfirmationModal (st : State) : State :=
  let modal := modalOverlay st in
  match modal_order_summary modal, modal_total_price modal with
  | Missing, _ | _, Missing => st
  | _, _ =>
      let '(totalPrice, modalItemsHtml) :=
        fold_left
          (fun '(totalPrice, rows) item =>
             ((totalPrice + price item * JS.of_Z (quantity item))%float,
              rows ++ [modal_row item]))
          (cart st) (0%float, []) in
      set_modalOverlay
        {| modal_order_summary := Written modalItemsHtml;
           modal_total_price := Written (toFixed totalPrice 2);
           modal_display := display_flex |} st
  end.

Definition resetOrder (st : State) : State :=
  let modal := modalOverlay st in
  let st1 :=
    set_modalOverlay
      {| modal_order_summary := modal_order_summary modal;
         modal_total_price := modal_total_price modal;
         modal_display := display_none |} st in
  let st2 := set_cart [] st1 in
  let st3 := set_cards (map resetButtonState (cards st2)) st2 in
  updateCart st3.

(** ** The click handlers *)

(** The button a click on the product grid lands in
    ([e.target.closest('button')]): its classes and the card around it
    ([target.closest('.card')]), given by its index among the cards of the
    page; an index beyond the cards of the page stands for no card. *)
Record Button := {
  classList : list string;
  closest_card : option nat
}.

(** The listener of the product grid. *)
Definition productGrid_click (target : option Button) (st : State) : State :=
  match target with
  | None => st
  | Some target =>
  match closest_card target with
  | None => st
  | Some i =>
  match nth_error (cards st) i with
  | None => st
  | Some card =>
  match card_id card with
  | None => st
  | Some cardId =>
  if (cardId =? "")%string then st
  else
    let itemInCart := find (has_id cardId) (cart st) in
    if JS.contains (classList target) "increment-btn" then
      match itemInCart with
      | Some item =>
          let q := quantity item + 1 in
          let st1 := set_cart (update_found (has_id cardId) (set_quantity q) (cart st)) st in
          updateCart (with_card i (updateButtonState q) st1)
      | None => st
      end
    else if JS.contains (classList target) "decrement-btn" then
      match itemInCart with
      | Some item =>
          let q := quantity item - 1 in
          let st1 := set_cart (update_found (has_id cardId) (set_quantity q) (cart st)) st in
          let st2 :=
            if q =? 0 then
              with_card i resetButtonState
                (set_cart (filter (has_other_id cardId) (cart st1)) st1)
            else with_card i (updateButtonState q) st1 in
          updateCart st2
      | None => st
      end
    else
      match itemInCart with
      | None => with_card i (updateButtonState 1) (addToCart i st)
      | Some _ => st
      end
  end end end end.

(** The listener of the cart section.  [removeBtn] is
    [e.target.closest('.remove-item-btn')], given by its [dataset.id];
    [targetClasses] is the class list of [e.target]. *)
Definition cartSection_click (removeBtn : option (option string))
    (targetClasses : list string) (st : State) : State :=
  match removeBtn with
  | Some dataset_id =>
      match dataset_id with
      | None => st
      | Some productId =>
          if (productId =? "")%string then st
          else
            let productInGrid := findProductCardById productId st in
            let st1 := set_cart (filter (has_other_id productId) (cart st)) st in
            let st2 :=
              match productInGrid with
              | Some i => with_card i resetButtonState st1
              | None => st1
              end in
            updateCart st2
      end
  | None =>
      if JS.contains targetClasses "confirm-order-btn"
      then showConfirmationModal st
      else st
  end.

(** The clicks the script listens to. *)
Inductive Event :=
| ProductGridClick (target : option Button)
| CartSectionClick (removeBtn : option (option string)) (targetClasses : list string)
| StartNewOrderClick.

Definition handle (st : State) (e : Event) : State :=
  match e with
  | ProductGridClick target => productGrid_click target st
  | CartSectionClick removeBtn targetClasses =>
      cartSection_click removeBtn targetClasses st
  | StartNewOrderClick => resetOrder st
  end.

(** The state after a sequence of clicks. *)
Definition run (es : list Event) (st : State) : State := fold_left handle es st.

(** The state when the listeners are installed: [let cart = []]. *)
Definition initial (cs : list Card) (p : CartSection) (m : Modal) : State :=
  {| cart := []; cards := cs; cartSection := p; modalOverlay := m |}.

(** ** What the specification speaks of *)

(** The invariant of the cart: every quantity is at least 1 and no two
    entries have the same id. *)
Definition cart_ok (l : list CartItem) : Prop :=
  Forall (fun item => 1 <= quantity item) l /\ NoDup (map id l).

(** A card shows its initial "add" control: it has no quantity selector
    and its [.button], when it has one, is not hidden. *)
Definition shows_add (card : Card) : bool :=
  match quantity_selector card, button card with
  | None, Some display_none => false
  | None, _ => true
  | Some _, _ => false
  end.

(** The cart section shows the empty-cart message. *)
Definition shows_empty_cart (p : CartSection) : bool :=
  match p with
  | EmptyCart | PageMarkup (Some true) => true
  | _ => false
  end.

(** The line total of an entry: [item.price * item.quantity]. *)
Definition line_total (item : CartItem) : float :=
  (price item * JS.of_Z (quantity item))%float.

(** The sum of a list of numbers, added one after the other to [acc]. *)
Fixpoint sum_from (acc : float) (l : list float) : float :=
  match l with
  | [] => acc
  | x :: l' => sum_from (acc + x)%float l'
  end.

(** The sum over all entries of price times quantity: the line totals
    added up from 0 in the order of the cart. *)
Definition grand_total (l : list CartItem) : float :=
  sum_from 0%float (map line_total l).

(** The sum of the quantities of all entries. *)
Fixpoint item_count (l : list CartItem) : Z :=
  match l with
  | [] => 0
  | item :: l' => quantity item + item_count l'
  end.

(** The order total the cart panel shows, when it shows one. *)
Definition panel_total (p : CartSection) : option Fixed :=
  match p with
  | CartList _ _ totalPrice => Some totalPrice
  | _ => None
  end.

(** The number of items in the heading [Your Cart (n)], when the script
    wrote the heading. *)
Definition panel_count (p : CartSection) : option Z :=
  match p with
  | CartList totalItems _ _ => Some totalItems
  | EmptyCart | PageMarkup (Some true) => Some 0
  | PageMarkup _ => None
  end.

(** The rows of the cart panel. *)
Definition panel_rows (p : CartSection) : list CartRow :=
  match p with
  | CartList _ items _ => items
  | _ => []
  end.

(** The total the confirmation modal shows, when the script wrote one. *)
Definition modal_total (m : Modal) : option Fixed :=
  match modal_total_price m with
  | Written t => Some t
  | _ => None
  end.

(** The rows of the confirmation modal. *)
Definition modal_rows (m : Modal) : list ModalRow :=
  match modal_order_summary m with
  | Written rows => rows
  | _ => []
  end.

(** The cart section as [updateCart] leaves it: what it shows is what the
    cart holds. *)
Definition rendered (st : State) : Prop :=
  cartSection st = cartSection (updateCart st).

(** The price as the specification words it: a leading currency symbol
    is stripped, the remainder is parsed as a floating-point number, and a
    text that does not parse to a number gives 0. *)
Definition strip_leading_dollar (s : string) : string :=
  match s with
  | String "$" rest => rest
  | _ => s
  end.

Definition price_as_specified (productPriceText : string) : float :=
  let x := JS.parseFloat (strip_leading_dollar productPriceText) in
  if is_nan x then 0%float else x.

(** The image as the specification words it: the URL with a [-desktop]
    suffix removed if present, otherwise the URL unchanged. *)
Fixpoint remove_suffix (suffix s : string) : string :=
  if (s =? suffix)%string then EmptyString
  else
    match s with
    | EmptyString => EmptyString
    | String c s' => String c (remove_suffix suffix s')
    end.

Definition image_as_specified (imgEl : option string) : option string :=
  match imgEl with
  | Some src =>
      if (src =? "")%string then None else Some (remove_suffix "-desktop" src)
  | None => None
  end.

(** The entry that [addToCart] pushes for a card with id [cardId]. *)
Definition new_item (cardId : string) (card : Card) : CartItem :=
  {| id := cardId; name := cardId;
     price := productPrice
                match card_price card with Some t => t | None => "" end;
     quantity := 1;
     image := productImage (querySelector_img card) |}.

(** ** A page to run the script on *)

Definition waffle : Card :=
  {| cart_name := Some "Waffle";
     card_price := Some "$6.50";
     img := Some "./assets/images/image-waffle-desktop.jpg";
     button := Some display_unset;
     quantity_selector := None |}.

Definition brulee : Card :=
  {| cart_name := Some "
        Vanilla Bean Creme Brulee
      ";
     card_price := Some "$7.00";
     img := Some "./assets/images/image-creme-brulee-desktop.jpg";
     button := Some display_unset;
     quantity_selector := None |}.

Definition modal_of_page : Modal :=
  {| modal_order_summary := Untouched;
     modal_total_price := Untouched;
     modal_display := display_none |}.

(** The page when the listeners are installed. *)
Definition page : State :=
  initial [waffle; brulee] (PageMarkup (Some false)) modal_of_page.

(** The controls of the card at index [i]. *)
Definition add_button (i : nat) : Button :=
  {| classList := ["button"]; closest_card := Some i |}.

Definition increment_button (i : nat) : Button :=
  {| classList := ["increment-btn"]; closest_card := Some i |}.

Definition decrement_button (i : nat) : Button :=
  {| classList := ["decrement-btn"]; closest_card := Some i |}.

(** Two waffles and one creme brulee in the cart. *)
Definition page_with_order : State :=
  run [ProductGridClick (Some (add_button 0));
       ProductGridClick (Some (increment_button 0));
       ProductGridClick (Some (add_button 1))] page.

(** The same order on a page whose modal lacks its summary element. *)
Definition page_without_summary : State :=
  set_modalOverlay
    {| modal_order_summary := Missing;
       modal_total_price := Untouched;
       modal_display := display_none |} page_with_order.

(** A page whose card shows a refund, and one whose image has [-desktop]
    twice in its URL. *)
Definition refund : Card :=
  {| cart_name := Some "Refund";
     card_price := Some "-$5";
     img := None;
     button := Some display_unset;
     quantity_selector := None |}.

Definition tart : Card :=
  {| cart_name := Some "Lemon Tart";
     card_price := Some "1$2";
     img := Some "./images-desktop/image-tart-desktop";
     button := Some display_unset;
     quantity_selector := None |}.

Definition odd_page : State :=
  initial [refund; tart] EmptyCart modal_of_page.

(** ** The cards and the cart, side by side *)

(** The product id of a card, as both listeners take it: the trimmed text
    of [.cart-name], when there is one and it is not empty. *)
Definition id_of_card (card : Card) : option string :=
  match card_id card with
  | Some s => if (s =? "")%string then None else Some s
  | None => None
  end.

(** The product ids of the cards of a page, in page order. *)
Definition card_ids (cs : list Card) : list string :=
  flat_map
    (fun card => match id_of_card card with Some s => [s] | None => [] end)
    cs.

(** A card mirrors a cart: its quantity selector shows the quantity of the
    cart's entry for the card's id, and there is no selector when the cart
    has no such entry or the card has no id. *)
Definition mirrors (l : list CartItem) (card : Card) : Prop :=
  match id_of_card card with
  | Some pid =>
      quantity_selector card = option_map quantity (find (has_id pid) l)
  | None => quantity_selector card = None
  end.

(** The [.button] of a card, when it has one, is hidden exactly when the
    card has a quantity selector. *)
Definition button_synced (card : Card) : bool :=
  match button card, quantity_selector card with
  | None, _ => true
  | Some display_none, Some _ => true
  | Some display_none, None => false
  | Some _, Some _ => false
  | Some _, None => true
  end.

(** Two entries that differ at most in their quantity. *)
Definition same_product (a b : CartItem) : Prop :=
  id a = id b /\ name a = name b /\ price a = price b /\ image a = image b.

(** An increment control and a decrement control of the example page that
    also carry other classes. *)
Definition both_button (i : nat) : Button :=
  {| classList := ["decrement-btn"; "increment-btn"]; closest_card := Some i |}.

(** The four things a click on the product grid can do, with the state
    each one leaves. *)
Inductive grid_step (st : State) (btn : Button) (i : nat) (card : Card)
    (cardId : string) : State -> Prop :=
| step_increment item :
    find (has_id cardId) (cart st) = Some item ->
    JS.contains (classList btn) "increment-btn" = true ->
    grid_step st btn i card cardId
      (updateCart
         (with_card i (updateButtonState (quantity item + 1))
            (set_cart
               (update_found (has_id cardId)
                  (set_quantity (quantity item + 1)) (cart st)) st)))
| step_decrement item :
    find (has_id cardId) (cart st) = Some item ->
    JS.contains (classList btn) "increment-btn" = false ->
    JS.contains (classList btn) "decrement-btn" = true ->
    quantity item - 1 <> 0 ->
    grid_step st btn i card cardId
      (updateCart
         (with_card i (updateButtonState (quantity item - 1))
            (set_cart
               (update_found (has_id cardId)
                  (set_quantity (quantity item - 1)) (cart st)) st)))
| step_decrement_to_zero item :
    find (has_id cardId) (cart st) = Some item ->
    JS.contains (classList btn) "increment-btn" = false ->
    JS.contains (classList btn) "decrement-btn" = true ->
    quantity item - 1 = 0 ->
    grid_step st btn i card cardId
      (updateCart
         (with_card i resetButtonState
            (set_cart (filter (has_other_id cardId) (cart st)) st)))
| step_add :
    find (has_id cardId) (cart st) = None ->
    JS.contains (classList btn) "increment-btn" = false ->
    JS.contains (classList btn) "decrement-btn" = false ->
    grid_step st btn i card cardId
      (with_card i (updateButtonState 1)
         (updateCart (set_cart (cart st ++ [new_item cardId card]) st))).

(** What the script never writes in a card: its name, its price, its
    image, and whether it has a [.button]. *)
Definition card_markup (card : Card)
  : option string * option string * option string * bool :=
  (cart_name card, card_price card, img card,
   match button card with Some _ => true | None => false end).

(** A card whose name is blank, on a page of its own. *)
Definition blank_card : Card :=
  {| cart_name := Some "  
  ";
     card_price := Some "$1";
     img := None;
     button := None;
     quantity_selector := None |}.

Definition blank_page : State := initial [blank_card] EmptyCart modal_of_page.

(** ** What a card and a row show *)

(** [card'] is [card] back in its "add" display: the same name, price and
    image, no quantity selector, and the [.button], when the card has one,
    displayed as a block. *)
Definition back_to_add (card card' : Card) : Prop :=
  cart_name card' = cart_name card
  /\ card_price card' = card_price card
  /\ img card' = img card
  /\ quantity_selector card' = None
  /\ button card'
     = match button card with
       | Some _ => Some display_block
       | None => None
       end.

(** [card'] is [card] showing the quantity [q]: the same name, price and
    image, a quantity selector that shows [q], and the [.button], when the
    card has one, hidden if the selector had to be created and left as it
    was if the card had a selector already. *)
Definition shows_quantity (q : Z) (card card' : Card) : Prop :=
  cart_name card' = cart_name card
  /\ card_price card' = card_price card
  /\ img card' = img card
  /\ quantity_selector card' = Some q
  /\ button card'
     = match quantity_selector card, button card with
       | None, Some _ => Some display_none
       | _, b => b
       end.

(** What a row of the cart panel shows of an entry, what a row of the
    modal shows of it (its image apart), and the same four values taken from
    the entry: name, quantity, unit price and line total. *)
Definition row_text (r : CartRow) : string * Z * Fixed * Fixed :=
  (row_name r, row_quantity r, row_price_per r, row_price_total r).

Definition modal_row_text (r : ModalRow) : string * Z * Fixed * Fixed :=
  (modal_item_name r, modal_item_quantity r, modal_item_price_per r,
   modal_item_total_price r).

Definition entry_text (item : CartItem) : string * Z * Fixed * Fixed :=
  (name item, quantity item, toFixed (price item) 2,
   toFixed (line_total item) 2).

(** The modal of a page before the script has written in it: each of its
    two elements is there or not, and none holds anything of the script. *)
Definition page_modal (has_summary has_total : bool) (d : Display) : Modal :=
  {| modal_order_summary := if has_summary then Untouched else Missing;
     modal_total_price := if has_total then Untouched else Missing;
     modal_display := d |}.

(** ** Lists *)

Section Lists.
Context {A B : Type}.
Implicit Types (l : list A) (p : A -> bool).

Lemma NoDup_map_filter (g : A -> B) p l :
  NoDup (map g l) -> NoDup (map g (filter p l)).
Proof.
  induction l as [|x l IH]; simpl; intros H; [assumption|].
  inversion H as [|? ? Hnotin Hnd]; subst.
  destruct (p x); simpl; auto.
  constructor; auto.
  intros Hin. apply Hnotin.
  apply in_map_iff in Hin. destruct Hin as [y [Hy Hin]].
  apply filter_In in Hin. apply in_map_iff. exists y. tauto.
Qed.

Lemma Forall_filter (Q : A -> Prop) p l :
  Forall Q l -> Forall Q (filter p l).
Proof.
  intros H. rewrite Forall_forall in *. intros x Hx.
  apply filter_In in Hx. apply H. tauto.
Qed.

Lemma filter_all_true p l :
  (forall x, In x l -> p x = true) -> filter p l = l.
Proof.
  induction l as [|x l IH]; simpl; intros H; [reflexivity|].
  rewrite (H x) by auto. rewrite IH by auto. reflexivity.
Qed.

Lemma nth_error_update_nth i (f : A -> A) l :
  nth_error (update_nth i f l) i = option_map f (nth_error l i).
Proof.
  revert i. induction l as [|x l IH]; intros [|i]; simpl; auto.
Qed.
End Lists.

Section MoreLists.
Context {A B : Type}.
Implicit Types (l : list A) (f : A -> A).

Lemma nth_error_update_nth_other i j f l :
  i <> j -> nth_error (update_nth i f l) j = nth_error l j.
Proof.
  revert i j. induction l as [|x l IH]; intros [|i] [|j] H; simpl; auto;
    try congruence.
Qed.

Lemma map_update_nth (g : A -> B) i f l :
  (forall x, g (f x) = g x) -> map g (update_nth i f l) = map g l.
Proof.
  intros Hg. revert i. induction l as [|x l IH]; intros [|i]; simpl; auto.
  - rewrite Hg. reflexivity.
  - rewrite IH. reflexivity.
Qed.

Lemma length_update_nth i f l :
  List.length (update_nth i f l) = List.length l.
Proof.
  revert i. induction l as [|x l IH]; intros [|i]; simpl; auto.
Qed.

Lemma Forall_update_nth (Q : A -> Prop) i f l :
  (forall x, Q x -> Q (f x)) -> Forall Q l -> Forall Q (update_nth i f l).
Proof.
  intros Hf. revert i. induction l as [|x l IH]; intros [|i] H; simpl; auto;
    inversion H; subst; constructor; auto.
Qed.
End MoreLists.

(** ** Frame lemmas: which component each function writes *)

(** The two branches of [updateCart], with the loop of the second one
    named. *)
Ltac updateCart_branches st :=
  unfold updateCart;
  destruct (cart st) eqn:?;
  [ destruct (cartSection st) as [[?|]| |]
  | destruct (fold_left _ _ _) as [[? ?] ?] ].

Lemma cart_updateCart st : cart (updateCart st) = cart st.
Proof. updateCart_branches st; simpl; auto. Qed.

Lemma cards_updateCart st : cards (updateCart st) = cards st.
Proof. updateCart_branches st; reflexivity. Qed.

Lemma modalOverlay_updateCart st : modalOverlay (updateCart st) = modalOverlay st.
Proof. updateCart_branches st; reflexivity. Qed.

Lemma cart_with_card i f st : cart (with_card i f st) = cart st.
Proof. reflexivity. Qed.

Lemma cart_showConfirmationModal st : cart (showConfirmationModal st) = cart st.
Proof.
  unfold showConfirmationModal. cbv zeta.
  destruct (fold_left _ _ _) as [? ?].
  destruct (modal_order_summary (modalOverlay st)),
    (modal_total_price (modalOverlay st)); reflexivity.
Qed.

Lemma cart_resetOrder st : cart (resetOrder st) = [].
Proof. unfold resetOrder. rewrite cart_updateCart. reflexivity. Qed.

Create HintDb frame discriminated.
#[local] Hint Rewrite cart_updateCart cards_updateCart modalOverlay_updateCart
  cart_with_card cart_showConfirmationModal cart_resetOrder : frame.

(** ** Lists: [find], [filter] and the mutation of the found item *)

Lemma has_id_true cardId item : has_id cardId item = true <-> id item = cardId.
Proof. unfold has_id. apply String.eqb_eq. Qed.

Lemma has_other_id_true cardId item :
  has_other_id cardId item = true <-> id item <> cardId.
Proof.
  unfold has_other_id. rewrite negb_true_iff. apply String.eqb_neq.
Qed.

Lemma find_has_id_none cardId l :
  find (has_id cardId) l = None <-> ~ In cardId (map id l).
Proof.
  induction l as [|x l IH]; simpl.
  - tauto.
  - destruct (has_id cardId x) eqn:E.
    + apply has_id_true in E. split; [discriminate | intros H; exfalso; auto].
    + rewrite IH. split.
      * intros H [H1|H1]; [|tauto].
        apply has_id_true in H1. congruence.
      * tauto.
Qed.

Lemma map_id_update_found p f l :
  (forall x, id (f x) = id x) ->
  map id (update_found p f l) = map id l.
Proof.
  intros Hf. induction l as [|x l IH]; simpl; [reflexivity|].
  destruct (p x); simpl; [rewrite Hf | rewrite IH]; reflexivity.
Qed.

Lemma Forall_update_found (Q : CartItem -> Prop) p f l item :
  Forall Q l -> find p l = Some item -> Q (f item) ->
  Forall Q (update_found p f l).
Proof.
  intros Hl. induction Hl as [|x l Hx Hl IH]; simpl; intros Hfind Hq.
  - discriminate.
  - destruct (p x).
    + injection Hfind as ->. constructor; assumption.
    + constructor; auto.
Qed.

(** A mutation of items that satisfy [has_id cardId] is not seen once
    the items with that id are filtered out. *)
Lemma filter_update_found cardId f l :
  (forall x, id (f x) = id x) ->
  filter (has_other_id cardId) (update_found (has_id cardId) f l)
  = filter (has_other_id cardId) l.
Proof.
  intros Hf. induction l as [|x l IH]; simpl; [reflexivity|].
  destruct (has_id cardId x) eqn:E; simpl.
  - unfold has_other_id, has_id in *. rewrite Hf, E. reflexivity.
  - rewrite IH. reflexivity.
Qed.

Lemma filter_has_other_id_absent cardId l :
  find (has_id cardId) l = None -> filter (has_other_id cardId) l = l.
Proof.
  induction l as [|x l IH]; simpl; [reflexivity|].
  unfold has_other_id, has_id in *.
  destruct (id x =? cardId)%string; simpl; [discriminate|].
  intros H. rewrite IH by assumption. reflexivity.
Qed.

Lemma find_filter_has_other_id cardId l :
  find (has_id cardId) (filter (has_other_id cardId) l) = None.
Proof.
  induction l as [|x l IH]; simpl; [reflexivity|].
  destruct (has_other_id cardId x) eqn:E; simpl; [|assumption].
  unfold has_other_id, has_id in *.
  apply negb_true_iff in E. rewrite E. assumption.
Qed.

(** ** The cart after each operation *)

(** [addToCart] on a card with a name pushes one item. *)
Lemma cart_addToCart i st card cardId :
  nth_error (cards st) i = Some card ->
  card_id card = Some cardId -> cardId <> "" ->
  cart (addToCart i st)
  = cart st ++
    [{| id := cardId; name := cardId;
        price := productPrice
                   match card_price card with Some t => t | None => "" end;
        quantity := 1;
        image := productImage (querySelector_img card) |}].
Proof.
  intros Hnth Hid Hne. unfold addToCart. rewrite Hnth, Hid.
  apply String.eqb_neq in Hne. rewrite Hne.
  rewrite cart_updateCart. reflexivity.
Qed.

(** The cart after a click on the product grid, branch by branch. *)
Lemma cart_productGrid_click target st :
  cart (productGrid_click target st) = cart st
  \/ exists btn i card cardId,
       target = Some btn /\ closest_card btn = Some i /\
       nth_error (cards st) i = Some card /\
       card_id card = Some cardId /\ cardId <> "" /\
       ((exists item,
            find (has_id cardId) (cart st) = Some item /\
            JS.contains (classList btn) "increment-btn" = true /\
            cart (productGrid_click target st)
            = update_found (has_id cardId) (set_quantity (quantity item + 1)) (cart st))
        \/ (exists item,
            find (has_id cardId) (cart st) = Some item /\
            JS.contains (classList btn) "increment-btn" = false /\
            JS.contains (classList btn) "decrement-btn" = true /\
            quantity item - 1 <> 0 /\
            cart (productGrid_click target st)
            = update_found (has_id cardId) (set_quantity (quantity item - 1)) (cart st))
        \/ (exists item,
            find (has_id cardId) (cart st) = Some item /\
            JS.contains (classList btn) "increment-btn" = false /\
            JS.contains (classList btn) "decrement-btn" = true /\
            quantity item - 1 = 0 /\
            cart (productGrid_click target st)
            = filter (has_other_id cardId) (cart st))
        \/ (find (has_id cardId) (cart st) = None /\
            JS.contains (classList btn) "increment-btn" = false /\
            JS.contains (classList btn) "decrement-btn" = false /\
            cart (productGrid_click target st) = cart (addToCart i st))).
Proof.
  unfold productGrid_click.
  destruct target as [btn|]; [|left; reflexivity].
  destruct (closest_card btn) as [i|] eqn:Hi; [|left; reflexivity].
  destruct (nth_error (cards st) i) as [card|] eqn:Hnth; [|left; reflexivity].
  destruct (card_id card) as [cardId|] eqn:Hid; [|left; reflexivity].
  destruct (cardId =? "")%string eqn:Hne; [left; reflexivity|].
  apply String.eqb_neq in Hne.
  destruct (JS.contains (classList btn) "increment-btn") eqn:Hinc.
  - destruct (find (has_id cardId) (cart st)) as [item|] eqn:Hfind;
      [|left; reflexivity].
    right. exists btn, i, card, cardId. repeat split; auto.
    left. exists item. repeat split; auto.
    rewrite cart_updateCart. reflexivity.
  - destruct (JS.contains (classList btn) "decrement-btn") eqn:Hdec.
    + destruct (find (has_id cardId) (cart st)) as [item|] eqn:Hfind;
        [|left; reflexivity].
      right. exists btn, i, card, cardId. repeat split; auto.
      right. rewrite cart_updateCart.
      destruct (quantity item - 1 =? 0) eqn:Hq.
      * right. left. exists item. apply Z.eqb_eq in Hq.
        repeat split; auto.
        simpl. apply filter_update_found. reflexivity.
      * left. exists item. apply Z.eqb_neq in Hq.
        repeat split; auto.
    + destruct (find (has_id cardId) (cart st)) as [item|] eqn:Hfind;
        [left; reflexivity|].
      right. exists btn, i, card, cardId. repeat split; auto.
      do 3 right. repeat split; auto.
Qed.

(** The cart after a click on the cart section. *)
Lemma cart_cartSection_click removeBtn targetClasses st :
  cart (cartSection_click removeBtn targetClasses st) = cart st
  \/ exists productId,
       removeBtn = Some (Some productId) /\ productId <> "" /\
       cart (cartSection_click removeBtn targetClasses st)
       = filter (has_other_id productId) (cart st).
Proof.
  unfold cartSection_click.
  destruct removeBtn as [[productId|]|].
  - destruct (productId =? "")%string eqn:Hne; [left; reflexivity|].
    right. exists productId. apply String.eqb_neq in Hne.
    repeat split; auto. rewrite cart_updateCart.
    destruct (findProductCardById productId st); reflexivity.
  - left. reflexivity.
  - left. destruct (JS.contains _ _); [apply cart_showConfirmationModal | reflexivity].
Qed.

(** ** The invariant of the cart *)

Lemma cart_ok_filter p l : cart_ok l -> cart_ok (filter p l).
Proof.
  intros [Hq Hid]. split; [apply Forall_filter | apply NoDup_map_filter]; assumption.
Qed.

Lemma cart_ok_update_found cardId q l item :
  cart_ok l -> find (has_id cardId) l = Some item -> 1 <= q ->
  cart_ok (update_found (has_id cardId) (set_quantity q) l).
Proof.
  intros [Hq Hid] Hfind Hle. split.
  - eapply Forall_update_found; eauto.
  - rewrite map_id_update_found by reflexivity. assumption.
Qed.

Lemma cart_ok_push l item :
  cart_ok l -> find (has_id (id item)) l = None -> 1 <= quantity item ->
  cart_ok (l ++ [item]).
Proof.
  intros [Hq Hid] Hfind Hle. split.
  - apply Forall_app. split; [assumption | constructor; [assumption | constructor]].
  - rewrite map_app. simpl.
    apply find_has_id_none in Hfind.
    apply NoDup_app; [assumption | repeat constructor; simpl; tauto |].
    intros a Ha [<-|[]]. exact (Hfind Ha).
Qed.

Lemma quantity_found_ge_1 p l item :
  cart_ok l -> find p l = Some item -> 1 <= quantity item.
Proof.
  intros [Hq _] Hfind. apply find_some in Hfind.
  rewrite Forall_forall in Hq. apply Hq. tauto.
Qed.

(** One click keeps the invariant. *)
Lemma cart_ok_handle st e : cart_ok (cart st) -> cart_ok (cart (handle st e)).
Proof.
  intros Hok. destruct e as [target|removeBtn targetClasses|]; simpl.
  - destruct (cart_productGrid_click target st)
      as [->|(btn & i & card & cardId & _ & _ & Hnth & Hid & Hne & H)];
      [assumption|].
    destruct H as [(item & Hfind & _ & ->)
                  |[(item & Hfind & _ & _ & Hq & ->)
                  |[(item & Hfind & _ & _ & Hq & ->)
                  |(Hfind & _ & _ & ->)]]].
    + pose proof (quantity_found_ge_1 _ _ _ Hok Hfind).
      eapply cart_ok_update_found; eauto. lia.
    + pose proof (quantity_found_ge_1 _ _ _ Hok Hfind).
      eapply cart_ok_update_found; eauto. lia.
    + apply cart_ok_filter. assumption.
    + rewrite (cart_addToCart _ _ _ _ Hnth Hid Hne).
      apply cart_ok_push; simpl; auto. lia.
  - destruct (cart_cartSection_click removeBtn targetClasses st)
      as [->|(productId & _ & _ & ->)]; [assumption|].
    apply cart_ok_filter. assumption.
  - rewrite cart_resetOrder. split; constructor.
Qed.

Lemma cart_ok_run es st : cart_ok (cart st) -> cart_ok (cart (run es st)).
Proof.
  revert st. induction es as [|e es IH]; intros st Hok; simpl; [assumption|].
  apply IH. apply cart_ok_handle. assumption.
Qed.

(** C1. In every state reached from the empty cart by any sequence of clicks
    (add, increment, decrement, remove, confirm, start new order), on any
    page, every entry of the cart has a quantity of at least 1, so none
    has quantity 0, and the ids of the entries are pairwise distinct. *)
Theorem reachable_cart_invariant :
  forall (cs : list Card) (p : CartSection) (m : Modal) (es : list Event),
    let st := run es (initial cs p m) in
    Forall (fun item => 1 <= quantity item) (cart st)
    /\ NoDup (map id (cart st))
    /\ (forall item, In item (cart st) -> quantity item <> 0).
Proof.
  intros cs p m es st.
  assert (Hok : cart_ok (cart st)).
  { apply cart_ok_run. split; constructor. }
  destruct Hok as [Hq Hid]. repeat split; try assumption.
  intros item Hin. rewrite Forall_forall in Hq. specialize (Hq _ Hin). lia.
Qed.

(** ** Adding to the cart *)


Lemma card_id_updateButtonState q card :
  card_id (updateButtonState q card) = card_id card.
Proof. unfold updateButtonState. destruct (quantity_selector card); reflexivity. Qed.

Lemma find_push_absent cardId l item :
  find (has_id cardId) l = None -> id item = cardId ->
  find (has_id cardId) (l ++ [item]) = Some item.
Proof.
  intros Hfind Hid. induction l as [|x l IH]; simpl in *.
  - apply has_id_true in Hid. rewrite Hid. reflexivity.
  - destruct (has_id cardId x); [discriminate | auto].
Qed.




(** ** Decrementing *)

(** The mutation of the found item changes that item, in place. *)
Lemma update_found_split p f l item :
  find p l = Some item ->
  exists l1 l2,
    l = l1 ++ item :: l2 /\ update_found p f l = l1 ++ f item :: l2
    /\ find p l1 = None.
Proof.
  induction l as [|x l IH]; simpl; intros Hfind; [discriminate|].
  destruct (p x) eqn:E.
  - injection Hfind as ->. exists [], l. auto.
  - destruct (IH Hfind) as (l1 & l2 & -> & Hu & Hl1).
    exists (x :: l1), l2. simpl. rewrite Hu, E. auto.
Qed.

Lemma find_update_found cardId q l item :
  find (has_id cardId) l = Some item ->
  find (has_id cardId) (update_found (has_id cardId) (set_quantity q) l)
  = Some (set_quantity q item).
Proof.
  induction l as [|x l IH]; simpl; intros Hfind; [discriminate|].
  destruct (has_id cardId x) eqn:E; simpl.
  - injection Hfind as ->. unfold has_id in *. simpl. rewrite E. reflexivity.
  - rewrite E. auto.
Qed.

Lemma filter_has_other_id_split l1 item l2 :
  NoDup (map id (l1 ++ item :: l2)) ->
  filter (has_other_id (id item)) (l1 ++ item :: l2) = l1 ++ l2.
Proof.
  intros Hnd. rewrite map_app in Hnd. simpl in Hnd.
  pose proof (NoDup_remove_2 _ _ _ Hnd) as Hnotin.
  rewrite filter_app. simpl.
  unfold has_other_id at 2. rewrite String.eqb_refl. simpl.
  rewrite !filter_all_true; [reflexivity| |];
    intros x Hx; apply has_other_id_true; intros Heq; apply Hnotin;
    rewrite in_app_iff, <- Heq; [right|left]; apply in_map; assumption.
Qed.

(** With at most one entry per id, the entry that [find] returns for an
    id is the entry with that id, wherever it stands in the cart. *)
Lemma find_split_NoDup l1 item l2 :
  NoDup (map id (l1 ++ item :: l2)) ->
  find (has_id (id item)) (l1 ++ item :: l2) = Some item
  /\ forall f,
       update_found (has_id (id item)) f (l1 ++ item :: l2) = l1 ++ f item :: l2.
Proof.
  induction l1 as [|x l1 IH]; simpl; intros Hnd.
  - unfold has_id. rewrite String.eqb_refl. auto.
  - inversion Hnd as [|? ? Hnotin Hnd']; subst.
    destruct (has_id (id item) x) eqn:E.
    + exfalso. apply Hnotin. apply has_id_true in E. rewrite E.
      rewrite map_app, in_app_iff. right. left. reflexivity.
    + destruct (IH Hnd') as [Hfind Hupd]. split; [assumption|].
      intros f. rewrite Hupd. reflexivity.
Qed.

Lemma back_to_add_resetButtonState card :
  back_to_add card (resetButtonState card).
Proof.
  unfold back_to_add, resetButtonState. simpl.
  destruct (button card); repeat split.
Qed.

Lemma shows_quantity_updateButtonState q card :
  shows_quantity q card (updateButtonState q card).
Proof.
  unfold shows_quantity, updateButtonState.
  destruct (quantity_selector card); simpl;
    destruct (button card); repeat split.
Qed.

Lemma shows_add_resetButtonState card :
  shows_add (resetButtonState card) = true.
Proof. unfold shows_add, resetButtonState. simpl. destruct (button card); reflexivity. Qed.

(** C3. For every state of the cart and every card with product id [pid],
    a click on the card's decrement control does this.  When the cart's
    entry for [pid] (the one [find] returns) has a quantity N > 1, that
    entry gets quantity N - 1, in place, every other entry staying as it
    is, and the card shows N - 1.  When the entry has quantity 1, the
    quantity reaches 0 and the entries with that id are removed from the
    cart, and the card is back to its "add" display: it is the card it
    was, with its name, price and image, without quantity selector and with
    its button displayed.  For N > 1 the card is the card it was with a
    selector showing N - 1, its button hidden if the selector had to be
    created.  No other card changes.
    When the cart has no entry for [pid], nothing changes.  So, in a cart with at most one entry
    per id that contains an entry for [pid] with quantity N, wherever it
    stands: for N > 1 the cart is the same with N - 1 in that entry, and
    for N = 1 it is the same without that entry. *)
Theorem decrement_click :
  forall (st : State) (btn : Button) (i : nat) (card : Card) (pid : string),
    closest_card btn = Some i ->
    nth_error (cards st) i = Some card ->
    card_id card = Some pid -> pid <> "" ->
    JS.contains (classList btn) "increment-btn" = false ->
    JS.contains (classList btn) "decrement-btn" = true ->
    let st' := productGrid_click (Some btn) st in
    (forall item,
        find (has_id pid) (cart st) = Some item -> 1 < quantity item ->
        (exists l1 l2,
            cart st = l1 ++ item :: l2
            /\ cart st' = l1 ++ set_quantity (quantity item - 1) item :: l2)
        /\ find (has_id pid) (cart st')
           = Some (set_quantity (quantity item - 1) item)
        /\ option_map quantity_selector (nth_error (cards st') i)
           = Some (Some (quantity item - 1))
        /\ (exists card',
               nth_error (cards st') i = Some card'
               /\ shows_quantity (quantity item - 1) card card')
        /\ (forall j, j <> i ->
                      nth_error (cards st') j = nth_error (cards st) j))
    /\ (forall item,
        find (has_id pid) (cart st) = Some item -> quantity item = 1 ->
        cart st' = filter (has_other_id pid) (cart st)
        /\ find (has_id pid) (cart st') = None
        /\ nth_error (cards st') i = Some (resetButtonState card)
        /\ shows_add (resetButtonState card) = true
        /\ (exists card',
               nth_error (cards st') i = Some card'
               /\ back_to_add card card' /\ shows_add card' = true)
        /\ (forall j, j <> i ->
                      nth_error (cards st') j = nth_error (cards st) j))
    /\ (find (has_id pid) (cart st) = None -> st' = st)
    /\ (forall l1 item l2,
          cart st = l1 ++ item :: l2 -> id item = pid ->
          NoDup (map id (cart st)) ->
          (1 < quantity item ->
           cart st' = l1 ++ set_quantity (quantity item - 1) item :: l2)
          /\ (quantity item = 1 -> cart st' = l1 ++ l2)).
Proof.
  intros st btn i card pid Hi Hnth Hid Hne Hinc Hdec st'.
  apply String.eqb_neq in Hne.
  assert (Hcart : forall item,
             find (has_id pid) (cart st) = Some item ->
             cart st'
             = if quantity item - 1 =? 0
               then filter (has_other_id pid) (cart st)
               else update_found (has_id pid)
                      (set_quantity (quantity item - 1)) (cart st)).
  { intros item Hfind. unfold st', productGrid_click.
    rewrite Hi, Hnth, Hid, Hne, Hinc, Hdec, Hfind, cart_updateCart.
    destruct (quantity item - 1 =? 0); simpl; [|reflexivity].
    apply filter_update_found. reflexivity. }
  split; [|split; [|split]].
  - intros item Hfind Hq.
    assert (Hst' : st' = updateCart (with_card i (updateButtonState (quantity item - 1))
               (set_cart (update_found (has_id pid)
                            (set_quantity (quantity item - 1)) (cart st)) st))).
    { unfold st', productGrid_click.
      rewrite Hi, Hnth, Hid, Hne, Hinc, Hdec, Hfind.
      destruct (quantity item - 1 =? 0) eqn:E; [apply Z.eqb_eq in E; lia|].
      reflexivity. }
    rewrite Hst', cart_updateCart, cards_updateCart. simpl.
    split; [|split; [|split; [|split]]].
    + destruct (update_found_split _ (set_quantity (quantity item - 1)) _ _ Hfind)
        as (l1 & l2 & H1 & H2 & _).
      exists l1, l2. auto.
    + apply find_update_found. assumption.
    + rewrite nth_error_update_nth, Hnth. simpl.
      unfold updateButtonState. destruct (quantity_selector card); reflexivity.
    + exists (updateButtonState (quantity item - 1) card).
      rewrite nth_error_update_nth, Hnth.
      split; [reflexivity | apply shows_quantity_updateButtonState].
    + intros j Hj. apply nth_error_update_nth_other. congruence.
  - intros item Hfind Hq.
    assert (Hst' : st' = updateCart (with_card i resetButtonState
               (set_cart (filter (has_other_id pid)
                  (update_found (has_id pid) (set_quantity (quantity item - 1)) (cart st)))
                  st))).
    { unfold st', productGrid_click.
      rewrite Hi, Hnth, Hid, Hne, Hinc, Hdec, Hfind.
      rewrite Hq. reflexivity. }
    rewrite Hst', cart_updateCart, cards_updateCart. simpl.
    rewrite filter_update_found by reflexivity.
    split; [reflexivity|]. split; [apply find_filter_has_other_id|].
    split; [rewrite nth_error_update_nth, Hnth; reflexivity|].
    split; [apply shows_add_resetButtonState|].
    split.
    + exists (resetButtonState card). rewrite nth_error_update_nth, Hnth.
      split; [reflexivity|].
      split; [apply back_to_add_resetButtonState
             | apply shows_add_resetButtonState].
    + intros j Hj. apply nth_error_update_nth_other. congruence.
  - intros Hfind. unfold st', productGrid_click.
    rewrite Hi, Hnth, Hid, Hne, Hinc, Hdec, Hfind. reflexivity.
  - intros l1 item l2 Hsplit Hitem Hnd. rewrite Hsplit in *. subst pid.
    destruct (find_split_NoDup _ _ _ Hnd) as [Hfind Hupd].
    rewrite (Hcart _ Hfind). split; intros Hq.
    + destruct (quantity item - 1 =? 0) eqn:E; [apply Z.eqb_eq in E; lia|].
      apply Hupd.
    + rewrite Hq. simpl. apply filter_has_other_id_split. assumption.
Qed.

(** ** Removing from the cart panel *)

(** Every entry of a cart that the script builds has a non-empty id. *)
Lemma nonempty_ids_handle st e :
  find (has_id "") (cart st) = None ->
  find (has_id "") (cart (handle st e)) = None.
Proof.
  intros Hok. rewrite find_has_id_none in *.
  destruct e as [target|removeBtn targetClasses|]; simpl.
  - destruct (cart_productGrid_click target st)
      as [->|(btn & i & card & cardId & _ & _ & Hnth & Hid & Hne & H)];
      [assumption|].
    destruct H as [(item & _ & _ & ->)
                  |[(item & _ & _ & _ & _ & ->)
                  |[(item & _ & _ & _ & _ & ->)
                  |(_ & _ & _ & ->)]]].
    + rewrite map_id_update_found by reflexivity. assumption.
    + rewrite map_id_update_found by reflexivity. assumption.
    + intros Hin. apply Hok. apply in_map_iff in Hin.
      destruct Hin as (x & Hx & Hin). apply filter_In in Hin.
      apply in_map_iff. exists x. tauto.
    + rewrite (cart_addToCart _ _ _ _ Hnth Hid Hne), map_app, in_app_iff.
      simpl. intros [Hin|[Heq|[]]]; [exact (Hok Hin) | exact (Hne Heq)].
  - destruct (cart_cartSection_click removeBtn targetClasses st)
      as [->|(productId & _ & _ & ->)]; [assumption|].
    intros Hin. apply Hok. apply in_map_iff in Hin.
    destruct Hin as (x & Hx & Hin). apply filter_In in Hin.
    apply in_map_iff. exists x. tauto.
  - rewrite cart_resetOrder. simpl. tauto.
Qed.

Lemma nonempty_ids_run es st :
  find (has_id "") (cart st) = None ->
  find (has_id "") (cart (run es st)) = None.
Proof.
  revert st. induction es as [|e es IH]; intros st Hok; simpl; [assumption|].
  apply IH, nonempty_ids_handle. assumption.
Qed.

(** The cart after a click on a remove control that carries [pid]. *)
Lemma cart_remove_click st pid targetClasses :
  pid <> "" \/ find (has_id "") (cart st) = None ->
  cart (cartSection_click (Some (Some pid)) targetClasses st)
  = filter (has_other_id pid) (cart st).
Proof.
  intros Hpid. unfold cartSection_click.
  destruct (pid =? "")%string eqn:E.
  - apply String.eqb_eq in E. subst pid.
    destruct Hpid as [Hne|Hnone]; [congruence|].
    symmetry. apply filter_has_other_id_absent. assumption.
  - rewrite cart_updateCart.
    destruct (findProductCardById pid st); reflexivity.
Qed.

(** C5. For every state of the cart and every product id: a click on a
    remove control that carries the id leaves in the cart exactly the
    entries with another id, unchanged and in the same order, whatever the
    quantity of the entry removed; with at most one entry per id this is
    the cart with that one entry taken out; and when no entry has the id
    the cart is unchanged.  In a state of any cart whatever, the id is any
    string but the empty one, which the listener takes for a control
    without id, and the empty string too when no entry has an empty id.  In
    a state reached by clicks from the empty cart, the id is any string. *)
Theorem remove_click_frame :
  (forall (st : State) (pid : string) (targetClasses : list string),
      pid <> "" \/ find (has_id "") (cart st) = None ->
      let st' := cartSection_click (Some (Some pid)) targetClasses st in
      cart st' = filter (has_other_id pid) (cart st)
      /\ find (has_id pid) (cart st') = None
      /\ (forall item,
            In item (cart st') <-> In item (cart st) /\ id item <> pid)
      /\ (forall l1 item l2,
            cart st = l1 ++ item :: l2 -> id item = pid ->
            NoDup (map id (cart st)) -> cart st' = l1 ++ l2)
      /\ (find (has_id pid) (cart st) = None -> cart st' = cart st))
  /\ (forall (cs : list Card) (p : CartSection) (m : Modal) (es : list Event)
             (pid : string) (targetClasses : list string),
        let st := run es (initial cs p m) in
        let st' := cartSection_click (Some (Some pid)) targetClasses st in
        (forall l1 item l2,
            cart st = l1 ++ item :: l2 -> id item = pid ->
            cart st' = l1 ++ l2)
        /\ (find (has_id pid) (cart st) = None -> cart st' = cart st)).
Proof.
  split.
  - intros st pid targetClasses Hpid st'.
    unfold st'. rewrite (cart_remove_click _ _ _ Hpid). repeat split.
    + apply find_filter_has_other_id.
    + apply filter_In in H. tauto.
    + apply filter_In in H. apply has_other_id_true. tauto.
    + intros [Hin Hid]. apply filter_In. split; [assumption|].
      apply has_other_id_true. assumption.
    + intros l1 item l2 Hsplit Hid Hnd. rewrite Hsplit in *. subst pid.
      apply filter_has_other_id_split. assumption.
    + apply filter_has_other_id_absent.
  - intros cs p m es pid targetClasses st st'.
    assert (Hids : find (has_id "") (cart st) = None)
      by (apply nonempty_ids_run; reflexivity).
    assert (Hok : cart_ok (cart st))
      by (apply cart_ok_run; split; constructor).
    unfold st'. rewrite (cart_remove_click _ _ _ (or_intror Hids)). split.
    + intros l1 item l2 Hsplit Hid. destruct Hok as [_ Hnd].
      rewrite Hsplit in *. subst pid.
      apply filter_has_other_id_split. assumption.
    + apply filter_has_other_id_absent.
Qed.

(** ** Starting a new order *)

(** C6. From every state (any cart, any modal, any cards in
    quantity-selector mode), [resetOrder] hides the confirmation modal,
    empties the cart, puts every product card back to its "add" display
    and leaves the cart panel showing the empty-cart message.  The cards
    are the cards of the page, in their order: each one keeps its name, its
    price and its image, has no quantity selector any more, and has its
    button, when it has one, displayed as a block. *)
Theorem resetOrder_resets_everything :
  forall st : State,
    let st' := resetOrder st in
    modal_display (modalOverlay st') = display_none
    /\ cart st' = []
    /\ cards st' = map resetButtonState (cards st)
    /\ Forall (fun card => shows_add card = true) (cards st')
    /\ List.length (cards st') = List.length (cards st)
    /\ shows_empty_cart (cartSection st') = true
    /\ (forall j card,
          nth_error (cards st) j = Some card ->
          exists card',
            nth_error (cards st') j = Some card'
            /\ back_to_add card card' /\ shows_add card' = true)
    /\ (forall j, nth_error (cards st) j = None ->
                  nth_error (cards st') j = None).
Proof.
  intros st st'. unfold st', resetOrder.
  autorewrite with frame. simpl.
  split; [reflexivity|]. split; [reflexivity|]. split; [reflexivity|].
  split; [|split; [|split; [|split]]].
  - apply Forall_forall. intros card Hin.
    apply in_map_iff in Hin. destruct Hin as (c & <- & _).
    apply shows_add_resetButtonState.
  - apply length_map.
  - unfold updateCart. simpl.
    destruct (cartSection st) as [[b|]| |]; reflexivity.
  - intros j card Hj. exists (resetButtonState card).
    rewrite nth_error_map, Hj.
    split; [reflexivity|].
    split; [apply back_to_add_resetButtonState
           | apply shows_add_resetButtonState].
  - intros j Hj. rewrite nth_error_map, Hj. reflexivity.
Qed.

(** ** Confirming the order *)

(** C10. For every state of the cart, confirming the order (the click on
    the confirm control, which runs [showConfirmationModal]) leaves the cart
    as it is: the same entries in the same order, each with the same id,
    name, price, quantity and image; the product cards and the cart panel
    are not touched either; and when the modal's summary or total element
    is missing nothing at all changes. *)
Theorem confirm_order_keeps_cart :
  forall (st : State) (targetClasses : list string),
    cart (showConfirmationModal st) = cart st
    /\ cart (cartSection_click None targetClasses st) = cart st
    /\ cards (showConfirmationModal st) = cards st
    /\ cartSection (showConfirmationModal st) = cartSection st
    /\ (modal_order_summary (modalOverlay st) = Missing
        \/ modal_total_price (modalOverlay st) = Missing ->
        showConfirmationModal st = st).
Proof.
  intros st targetClasses.
  assert (H : cart (showConfirmationModal st) = cart st
              /\ cards (showConfirmationModal st) = cards st
              /\ cartSection (showConfirmationModal st) = cartSection st).
  { unfold showConfirmationModal. cbv zeta.
    destruct (fold_left _ _ _) as [? ?].
    destruct (modal_order_summary (modalOverlay st)),
      (modal_total_price (modalOverlay st)); auto. }
  destruct H as (H1 & H2 & H3). repeat split; auto.
  - unfold cartSection_click.
    destruct (JS.contains _ _); [assumption | reflexivity].
  - unfold showConfirmationModal. cbv zeta.
    destruct (fold_left _ _ _) as [? ?].
    intros [-> | ->]; [reflexivity|].
    destruct (modal_order_summary (modalOverlay st)); reflexivity.
Qed.

(** ** Rendering *)

Lemma updateCart_loop l totalItems totalPrice rows :
  fold_left
    (fun '(totalItems, totalPrice, rows) item =>
       (totalItems + quantity item,
        (totalPrice + price item * JS.of_Z (quantity item))%float,
        rows ++ [cart_row item]))
    l (totalItems, totalPrice, rows)
  = (totalItems + item_count l,
     sum_from totalPrice (map line_total l),
     rows ++ map cart_row l).
Proof.
  revert totalItems totalPrice rows.
  induction l as [|item l IH]; intros totalItems totalPrice rows; simpl.
  - rewrite Z.add_0_r, app_nil_r. reflexivity.
  - rewrite IH, <- app_assoc, Z.add_assoc. reflexivity.
Qed.

Lemma showConfirmationModal_loop l totalPrice rows :
  fold_left
    (fun '(totalPrice, rows) item =>
       ((totalPrice + price item * JS.of_Z (quantity item))%float,
        rows ++ [modal_row item]))
    l (totalPrice, rows)
  = (sum_from totalPrice (map line_total l), rows ++ map modal_row l).
Proof.
  revert totalPrice rows.
  induction l as [|item l IH]; intros totalPrice rows; simpl.
  - rewrite app_nil_r. reflexivity.
  - rewrite IH, <- app_assoc. reflexivity.
Qed.

(** What [updateCart] writes in the cart section. *)
Lemma cartSection_updateCart st :
  cartSection (updateCart st)
  = match cart st with
    | [] =>
        match cartSection st with
        | PageMarkup (Some _) => PageMarkup (Some true)
        | _ => EmptyCart
        end
    | _ :: _ =>
        CartList (item_count (cart st)) (map cart_row (cart st))
          (toFixed (grand_total (cart st)) 2)
    end.
Proof.
  unfold updateCart, grand_total.
  destruct (cart st) as [|item l] eqn:E.
  - destruct (cartSection st) as [[b|]| |]; reflexivity.
  - rewrite updateCart_loop. reflexivity.
Qed.

(** What [showConfirmationModal] writes in the modal, when the two
    elements it fills are there. *)
Lemma modalOverlay_showConfirmationModal st :
  modal_order_summary (modalOverlay st) <> Missing ->
  modal_total_price (modalOverlay st) <> Missing ->
  modalOverlay (showConfirmationModal st)
  = {| modal_order_summary := Written (map modal_row (cart st));
       modal_total_price := Written (toFixed (grand_total (cart st)) 2);
       modal_display := display_flex |}.
Proof.
  intros Hs Ht. unfold showConfirmationModal, grand_total. cbv zeta.
  rewrite showConfirmationModal_loop.
  destruct (modal_order_summary (modalOverlay st)),
    (modal_total_price (modalOverlay st));
    try contradiction; reflexivity.
Qed.

Lemma rendered_updateCart st : rendered (updateCart st).
Proof.
  unfold rendered. rewrite (cartSection_updateCart (updateCart st)).
  rewrite cart_updateCart, cartSection_updateCart.
  destruct (cart st); [|reflexivity].
  destruct (cartSection st) as [[b|]| |]; reflexivity.
Qed.

Lemma rendered_with_card i f st : rendered st -> rendered (with_card i f st).
Proof.
  unfold rendered. rewrite !cartSection_updateCart. simpl. auto.
Qed.

Lemma rendered_addToCart i st :
  cart (addToCart i st) <> cart st -> rendered (addToCart i st).
Proof.
  unfold addToCart.
  destruct (nth_error (cards st) i) as [card|]; [|congruence].
  destruct (card_id card) as [cardId|]; [|congruence].
  destruct (cardId =? "")%string; [congruence|].
  intros _. apply rendered_updateCart.
Qed.

(** Every click that changes the cart leaves the cart section rendered
    from the new cart. *)
Lemma rendered_handle st e :
  cart (handle st e) <> cart st -> rendered (handle st e).
Proof.
  destruct e as [target|removeBtn targetClasses|]; simpl.
  - unfold productGrid_click.
    destruct target as [btn|]; [|congruence].
    destruct (closest_card btn) as [i|]; [|congruence].
    destruct (nth_error (cards st) i) as [card|]; [|congruence].
    destruct (card_id card) as [cardId|]; [|congruence].
    destruct (cardId =? "")%string; [congruence|].
    destruct (JS.contains (classList btn) "increment-btn").
    + destruct (find (has_id cardId) (cart st)); [|congruence].
      intros _. apply rendered_updateCart.
    + destruct (JS.contains (classList btn) "decrement-btn").
      * destruct (find (has_id cardId) (cart st)); [|congruence].
        intros _. apply rendered_updateCart.
      * destruct (find (has_id cardId) (cart st)); [congruence|].
        rewrite cart_with_card. intros H.
        apply rendered_with_card, rendered_addToCart. assumption.
  - unfold cartSection_click.
    destruct removeBtn as [[productId|]|]; [|congruence|].
    + destruct (productId =? "")%string; [congruence|].
      intros _. apply rendered_updateCart.
    + destruct (JS.contains targetClasses "confirm-order-btn"); [|congruence].
      rewrite cart_showConfirmationModal. congruence.
  - intros _. apply rendered_updateCart.
Qed.

(** ** The price and the image of a new entry *)

Lemma strip_prefix_app pat rest :
  JS.strip_prefix pat (pat ++ rest)%string = Some rest.
Proof.
  induction pat as [|c pat IH]; simpl; [reflexivity|].
  rewrite Ascii.eqb_refl. assumption.
Qed.

(** A string without the pattern is returned as it is. *)
Lemma replace_not_included pat s :
  JS.includes pat s = false -> JS.replace pat s = s.
Proof.
  induction s as [|c s IH]; simpl.
  - destruct (JS.strip_prefix pat ""); [discriminate | reflexivity].
  - destruct (JS.strip_prefix pat (String c s)); [discriminate|].
    intros H. rewrite IH by assumption. reflexivity.
Qed.

Lemma replace_eq pat s :
  JS.replace pat s
  = match JS.strip_prefix pat s with
    | Some rest => rest
    | None =>
        match s with
        | EmptyString => EmptyString
        | String c s' => String c (JS.replace pat s')
        end
    end.
Proof. destruct s; reflexivity. Qed.

(** The occurrence of the pattern that is removed is the first one. *)
Lemma replace_first_occurrence pat a b :
  JS.starts_within pat a (pat ++ b)%string = false ->
  JS.replace pat (a ++ pat ++ b)%string = (a ++ b)%string.
Proof.
  induction a as [|c a IH]; intros H.
  - change (("" ++ pat ++ b)%string) with ((pat ++ b)%string).
    rewrite replace_eq, strip_prefix_app. reflexivity.
  - rewrite replace_eq.
    change ((String c a ++ pat ++ b)%string)
      with (String c (a ++ pat ++ b)%string) in *.
    change ((String c a ++ b)%string) with (String c (a ++ b)%string).
    change (JS.starts_within pat (String c a) (pat ++ b)%string)
      with (match JS.strip_prefix pat (String c (a ++ pat ++ b)%string) with
            | Some _ => true
            | None => JS.starts_within pat a (pat ++ b)%string
            end) in H.
    destruct (JS.strip_prefix pat (String c (a ++ pat ++ b))); [discriminate|].
    rewrite IH by assumption. reflexivity.
Qed.

(** For a pattern of one character, the first occurrence is after any
    text without that character. *)
Lemma starts_within_char c a rest :
  JS.includes (String c "") a = false ->
  JS.starts_within (String c "") a rest = false.
Proof.
  induction a as [|x a IH]; [reflexivity|].
  cbn [JS.includes JS.starts_within JS.strip_prefix String.append].
  destruct (Ascii.eqb c x); [discriminate | exact IH].
Qed.

Lemma truthy_number_not_nan x : JS.truthy_number x = true -> is_nan x = false.
Proof.
  unfold JS.truthy_number. rewrite negb_true_iff, orb_false_iff. tauto.
Qed.

Lemma productPrice_not_nan text : is_nan (productPrice text) = false.
Proof.
  unfold productPrice.
  destruct (JS.truthy_number _) eqn:E.
  - apply truthy_number_not_nan. assumption.
  - reflexivity.
Qed.

(** The cart after a click on the plain add control of a card whose
    product is not in the cart. *)
Lemma cart_add_click st btn i card cardId :
  closest_card btn = Some i -> nth_error (cards st) i = Some card ->
  card_id card = Some cardId -> cardId <> "" ->
  JS.contains (classList btn) "increment-btn" = false ->
  JS.contains (classList btn) "decrement-btn" = false ->
  find (has_id cardId) (cart st) = None ->
  cart (productGrid_click (Some btn) st) = cart st ++ [new_item cardId card].
Proof.
  intros Hi Hnth Hid Hne Hinc Hdec Hfind.
  unfold productGrid_click. rewrite Hi, Hnth, Hid, Hinc, Hdec, Hfind.
  pose proof Hne as Hne'. apply String.eqb_neq in Hne'. rewrite Hne'.
  rewrite cart_with_card. apply cart_addToCart; assumption.
Qed.

(** C7, as amended.  For every price text, the add click stores as price
    of the new entry the number that [parseFloat] reads in the text with
    its first [$] removed, wherever that [$] stands (so a leading [$] is
    stripped and the remainder parsed), and 0 when that number is [NaN];
    the stored price is never [NaN], and the entry is added whatever the
    price text is, also when the card has no price element. *)
Theorem stored_price :
  forall (st : State) (btn : Button) (i : nat) (card : Card) (pid : string),
    closest_card btn = Some i ->
    nth_error (cards st) i = Some card ->
    card_id card = Some pid -> pid <> "" ->
    JS.contains (classList btn) "increment-btn" = false ->
    JS.contains (classList btn) "decrement-btn" = false ->
    find (has_id pid) (cart st) = None ->
    let text := match card_price card with Some t => t | None => "" end in
    let x := JS.parseFloat (JS.replace "$" text) in
    (exists item,
        cart (productGrid_click (Some btn) st) = cart st ++ [item]
        /\ price item = (if JS.truthy_number x then x else 0%float)
        /\ is_nan (price item) = false
        /\ (is_nan x = true -> price item = 0%float))
    /\ (forall rest, text = String "$" rest -> JS.replace "$" text = rest)
    /\ (forall a b,
          text = (a ++ "$" ++ b)%string -> JS.includes "$" a = false ->
          JS.replace "$" text = (a ++ b)%string)
    /\ (JS.includes "$" text = false -> JS.replace "$" text = text).
Proof.
  intros st btn i card pid Hi Hnth Hid Hne Hinc Hdec Hfind text x.
  split; [|split; [|split]].
  - exists (new_item pid card).
    split; [apply cart_add_click with (i := i); assumption|].
    simpl. fold text. split; [reflexivity|]. split.
    + apply productPrice_not_nan.
    + intros Hnan. unfold productPrice. fold x.
      unfold JS.truthy_number. rewrite Hnan. reflexivity.
  - intros rest H. rewrite H. reflexivity.
  - intros a b H Ha. rewrite H.
    apply replace_first_occurrence, starts_within_char. assumption.
  - apply replace_not_included.
Qed.

(** C9, as amended.  For every card, the add click stores as image of the
    new entry the [src] of the card's first image with the first occurrence
    of [-desktop] removed, wherever it stands in the URL (so a URL that
    ends in its only [-desktop] loses that suffix), and the URL unchanged
    when it has no [-desktop]; the image is absent when that [src] is empty,
    and when the card has neither an image nor a quantity selector. *)
Theorem stored_image :
  forall (st : State) (btn : Button) (i : nat) (card : Card) (pid : string),
    closest_card btn = Some i ->
    nth_error (cards st) i = Some card ->
    card_id card = Some pid -> pid <> "" ->
    JS.contains (classList btn) "increment-btn" = false ->
    JS.contains (classList btn) "decrement-btn" = false ->
    find (has_id pid) (cart st) = None ->
    exists item,
      cart (productGrid_click (Some btn) st) = cart st ++ [item]
      /\ (forall url, img card = Some url -> url <> "" ->
            image item = Some (JS.replace "-desktop" url)
            /\ (JS.includes "-desktop" url = false -> image item = Some url)
            /\ (forall a b,
                  url = (a ++ "-desktop" ++ b)%string ->
                  JS.starts_within "-desktop" a ("-desktop" ++ b) = false ->
                  image item = Some (a ++ b)%string))
      /\ (img card = Some "" -> image item = None)
      /\ (img card = None -> quantity_selector card = None -> image item = None).
Proof.
  intros st btn i card pid Hi Hnth Hid Hne Hinc Hdec Hfind.
  exists (new_item pid card).
    split; [apply cart_add_click with (i := i); assumption|].
  unfold new_item. cbn [image]. unfold querySelector_img.
  split; [|split].
  - intros url Himg Hurl. rewrite Himg. unfold productImage.
    apply String.eqb_neq in Hurl. rewrite Hurl.
    split; [reflexivity|split].
    + intros Hno. rewrite replace_not_included by assumption. reflexivity.
    + intros a b Hsplit Hfirst.
      rewrite Hsplit, replace_first_occurrence by assumption. reflexivity.
  - intros ->. reflexivity.
  - intros -> ->. reflexivity.
Qed.

(** ** The script on the example page *)

Example parseFloat_examples :
  map JS.parseFloat
    ["6.50"; "  7"; "-.5e1x"; "5.e3"; "1e"; "12abc"; "+Infinity";
     "9007199254740993"; "0.1"; "1e23"; "1.7976931348623159e308";
     "2.4703282292062327e-324"; "2.4703282292062328e-324"]
  = [6.5; 7; -5; 5000; 1; 12; infinity;
     9007199254740992; 0x1.999999999999ap-4; 0x1.52d02c7e14af6p+76; infinity;
     0; 0x0.0000000000001p-1022]%float.
Proof. vm_compute. reflexivity. Qed.

Example parseFloat_nan :
  map (fun s => is_nan (JS.parseFloat s))
    [""; "abc"; "."; "-"; "e5"; "$5"; "-$5"; ".e1"; "- 5"]
  = [true; true; true; true; true; true; true; true; true].
Proof. vm_compute. reflexivity. Qed.

Example string_examples :
  (JS.replace "$" "$6.50", JS.replace "$" "1$2$3",
   JS.replace "-desktop" "a-desktop-b-desktop.jpg",
   JS.replace "-desktop" "abc", JS.trim "  a b
 ", JS.trim "   ")
  = ("6.50", "12$3", "a-b-desktop.jpg", "abc", "a b", "").
Proof. vm_compute. reflexivity. Qed.

(** The example of the specification: one add, one increment, two
    decrements. *)
Example waffle_example :
  let add := ProductGridClick (Some (add_button 0)) in
  let inc := ProductGridClick (Some (increment_button 0)) in
  let dec := ProductGridClick (Some (decrement_button 0)) in
  cart (run [add] page)
  = [{| id := "Waffle"; name := "Waffle"; price := 6.5; quantity := 1;
        image := Some "./assets/images/image-waffle.jpg" |}]
  /\ panel_count (cartSection (run [add] page)) = Some 1
  /\ panel_total (cartSection (run [add] page)) = Some (toFixed 6.5 2)
  /\ map quantity (cart (run [add; inc] page)) = [2]
  /\ panel_total (cartSection (run [add; inc] page)) = Some (toFixed 13 2)
  /\ cart (run [add; inc; dec; dec] page) = []
  /\ shows_empty_cart (cartSection (run [add; inc; dec; dec] page)) = true.
Proof. vm_compute. repeat split; reflexivity. Qed.

(** A card without image that still carries a quantity selector: the
    first image of the card is then the decrement icon of the selector. *)
Example image_of_card_with_selector :
  let card := updateButtonState 1 refund in
  productImage (querySelector_img card) = Some decrement_icon
  /\ productImage (querySelector_img refund) = None.
Proof. split; reflexivity. Qed.

(** ** The claims at concrete inputs *)


Lemma decrement_click_witness :
  map quantity (cart page_with_order) = [2; 1]
  /\ map quantity
       (cart (productGrid_click (Some (decrement_button 0)) page_with_order))
     = [1; 1]
  /\ cart (productGrid_click (Some (decrement_button 1)) page_with_order)
     = filter (has_other_id "Vanilla Bean Creme Brulee") (cart page_with_order)
  /\ option_map shows_add
       (nth_error
          (cards (productGrid_click (Some (decrement_button 1)) page_with_order))
          1)
     = Some true.
Proof.
  assert ("Waffle" <> "") as Hne0 by discriminate.
  assert ("Vanilla Bean Creme Brulee" <> "") as Hne1 by discriminate.
  destruct (decrement_click page_with_order (decrement_button 0) 0%nat
              (updateButtonState 2 waffle) "Waffle"
              eq_refl eq_refl eq_refl Hne0 eq_refl eq_refl)
    as (Hmore & _ & _).
  destruct (decrement_click page_with_order (decrement_button 1) 1%nat
              (updateButtonState 1 brulee) "Vanilla Bean Creme Brulee"
              eq_refl eq_refl eq_refl Hne1 eq_refl eq_refl)
    as (_ & Hone & _).
  split; [reflexivity|]. split.
  - destruct (Hmore (set_quantity 2 (new_item "Waffle" waffle)) eq_refl)
      as ((l1 & l2 & _ & _) & _ & _); [reflexivity|].
    reflexivity.
  - destruct (Hone (new_item "Vanilla Bean Creme Brulee" brulee) eq_refl eq_refl)
      as (Hcart & _ & Hcard & Hadd & _).
    split; [exact Hcart|]. rewrite Hcard. simpl. rewrite Hadd. reflexivity.
Defined.

Lemma remove_click_frame_witness :
  map id (cart page_with_order) = ["Waffle"; "Vanilla Bean Creme Brulee"]
  /\ cart (cartSection_click (Some (Some "Waffle")) [] page_with_order)
     = [new_item "Vanilla Bean Creme Brulee" brulee].
Proof.
  assert ("Waffle" <> "") as Hne by discriminate.
  destruct remove_click_frame as (Hany & _).
  destruct (Hany page_with_order "Waffle" [] (or_introl Hne)) as (Hcart & _).
  split; [reflexivity|]. rewrite Hcart. reflexivity.
Defined.

Lemma confirm_order_keeps_cart_witness :
  modal_order_summary (modalOverlay page_without_summary) = Missing
  /\ showConfirmationModal page_without_summary = page_without_summary
  /\ cart (cartSection_click None ["confirm-order-btn"] page_with_order)
     = cart page_with_order.
Proof.
  destruct (confirm_order_keeps_cart page_without_summary [])
    as (_ & _ & _ & _ & Hmissing).
  destruct (confirm_order_keeps_cart page_with_order ["confirm-order-btn"])
    as (_ & Hclick & _).
  split; [reflexivity|]. split; [|exact Hclick].
  apply Hmissing. left. reflexivity.
Defined.

Lemma stored_price_witness :
  map price (cart (productGrid_click (Some (add_button 1)) page)) = [7%float]
  /\ JS.replace "$" "$7.00" = "7.00".
Proof.
  assert ("Vanilla Bean Creme Brulee" <> "") as Hne by discriminate.
  destruct (stored_price page (add_button 1) 1%nat brulee
              "Vanilla Bean Creme Brulee"
              eq_refl eq_refl eq_refl Hne eq_refl eq_refl eq_refl)
    as ((item & Hcart & Hprice & _) & Hlead & _).
  split.
  - rewrite Hcart. simpl. rewrite Hprice. reflexivity.
  - exact (Hlead "7.00" eq_refl).
Defined.

Lemma stored_image_witness :
  map image (cart (productGrid_click (Some (add_button 0)) page))
  = [Some "./assets/images/image-waffle.jpg"].
Proof.
  assert ("Waffle" <> "") as Hne by discriminate.
  destruct (stored_image page (add_button 0) 0%nat waffle "Waffle"
              eq_refl eq_refl eq_refl Hne eq_refl eq_refl eq_refl)
    as (item & Hcart & Himg & _).
  rewrite Hcart. simpl.
  assert (Hurl : "./assets/images/image-waffle-desktop.jpg" <> "") by discriminate.
  destruct (Himg _ eq_refl Hurl) as (_ & _ & Hfirst).
  rewrite (Hfirst "./assets/images/image-waffle" ".jpg" eq_refl eq_refl).
  reflexivity.
Defined.

(** ** Where the code departs from the wording of a claim *)

(** C7 as stated fails when the [$] is not the first character of the
    price text: the script removes it all the same, and the number read
    is another one. *)
Lemma price_with_inner_dollar :
  map price
    (cart (run [ProductGridClick (Some (add_button 0));
                ProductGridClick (Some (add_button 1))] odd_page))
  = [(-5)%float; 12%float]
  /\ map price_as_specified ["-$5"; "1$2"] = [0%float; 1%float]
  /\ productPrice "1$2" <> price_as_specified "1$2".
Proof.
  split; [vm_compute; reflexivity|]. split; [vm_compute; reflexivity|].
  intros H.
  assert (E : (productPrice "1$2" =? price_as_specified "1$2")%float = false)
    by (vm_compute; reflexivity).
  rewrite H in E. vm_compute in E. discriminate.
Qed.

(** C9 as stated fails when [-desktop] stands in the URL before its
    end: the script removes the first occurrence, which need not be a
    suffix, and leaves a later suffix in place. *)
Lemma image_with_inner_desktop :
  map image
    (cart (run [ProductGridClick (Some (add_button 1))] odd_page))
  = [Some "./images/image-tart-desktop"]
  /\ image_as_specified (img tart) = Some "./images-desktop/image-tart"
  /\ productImage (img tart) <> image_as_specified (img tart)
  /\ productImage (img waffle) = Some "./assets/images/image-waffle.jpg"
  /\ image_as_specified (img waffle)
     = Some "./assets/images/image-waffle-desktop.jpg".
Proof. repeat split. discriminate. Qed.

(** ** The state after each click, branch by branch *)

Lemma set_quantity_same item : set_quantity (quantity item) item = item.
Proof. destruct item; reflexivity. Qed.

Lemma addToCart_eq i st card cardId :
  nth_error (cards st) i = Some card ->
  card_id card = Some cardId -> cardId <> "" ->
  addToCart i st = updateCart (set_cart (cart st ++ [new_item cardId card]) st).
Proof.
  intros Hnth Hid Hne. unfold addToCart. rewrite Hnth, Hid.
  apply String.eqb_neq in Hne. rewrite Hne. reflexivity.
Qed.

Lemma productGrid_click_cases target st :
  productGrid_click target st = st
  \/ exists btn i card cardId,
       target = Some btn /\ closest_card btn = Some i /\
       nth_error (cards st) i = Some card /\
       card_id card = Some cardId /\ cardId <> "" /\
       grid_step st btn i card cardId (productGrid_click target st).
Proof.
  unfold productGrid_click.
  destruct target as [btn|]; [|left; reflexivity].
  destruct (closest_card btn) as [i|] eqn:Hi; [|left; reflexivity].
  destruct (nth_error (cards st) i) as [card|] eqn:Hnth; [|left; reflexivity].
  destruct (card_id card) as [cardId|] eqn:Hid; [|left; reflexivity].
  destruct (cardId =? "")%string eqn:Hne; [left; reflexivity|].
  apply String.eqb_neq in Hne.
  destruct (JS.contains (classList btn) "increment-btn") eqn:Hinc.
  - destruct (find (has_id cardId) (cart st)) as [item|] eqn:Hfind;
      [|left; reflexivity].
    right. exists btn, i, card, cardId. repeat split; auto.
    apply step_increment; assumption.
  - destruct (JS.contains (classList btn) "decrement-btn") eqn:Hdec.
    + destruct (find (has_id cardId) (cart st)) as [item|] eqn:Hfind;
        [|left; reflexivity].
      right. exists btn, i, card, cardId. repeat split; auto.
      destruct (quantity item - 1 =? 0) eqn:Hq.
      * apply Z.eqb_eq in Hq.
        replace (set_cart
                   (filter (has_other_id cardId)
                      (cart
                         (set_cart
                            (update_found (has_id cardId)
                               (set_quantity (quantity item - 1)) (cart st)) st)))
                   (set_cart
                      (update_found (has_id cardId)
                         (set_quantity (quantity item - 1)) (cart st)) st))
          with (set_cart (filter (has_other_id cardId) (cart st)) st).
        -- apply step_decrement_to_zero with (item := item); assumption.
        -- unfold set_cart. simpl.
           rewrite filter_update_found by reflexivity. reflexivity.
      * apply Z.eqb_neq in Hq.
        apply step_decrement; assumption.
    + destruct (find (has_id cardId) (cart st)) as [item|] eqn:Hfind;
        [left; reflexivity|].
      right. exists btn, i, card, cardId. repeat split; auto.
      rewrite (addToCart_eq _ _ _ _ Hnth Hid Hne).
      apply step_add; assumption.
Qed.

(** What a click on the cart section can do. *)
Lemma cartSection_click_cases removeBtn targetClasses st :
  cartSection_click removeBtn targetClasses st = st
  \/ (exists productId,
        removeBtn = Some (Some productId) /\ productId <> "" /\
        cartSection_click removeBtn targetClasses st
        = updateCart
            (match findProductCardById productId st with
             | Some i =>
                 with_card i resetButtonState
                   (set_cart (filter (has_other_id productId) (cart st)) st)
             | None => set_cart (filter (has_other_id productId) (cart st)) st
             end))
  \/ (removeBtn = None /\
      cartSection_click removeBtn targetClasses st = showConfirmationModal st).
Proof.
  unfold cartSection_click.
  destruct removeBtn as [[productId|]|].
  - destruct (productId =? "")%string eqn:Hne; [left; reflexivity|].
    right. left. exists productId. apply String.eqb_neq in Hne.
    split; [reflexivity|]. split; [assumption|].
    destruct (findProductCardById productId st); reflexivity.
  - left. reflexivity.
  - destruct (JS.contains _ _); [right; right; auto | left; reflexivity].
Qed.


Lemma update_found_app p f l1 x l2 :
  find p l1 = None -> p x = true ->
  update_found p f (l1 ++ x :: l2) = l1 ++ f x :: l2.
Proof.
  intros Hl1 Hx. induction l1 as [|y l1 IH]; simpl in *.
  - rewrite Hx. reflexivity.
  - destruct (p y); [discriminate|]. rewrite IH by assumption. reflexivity.
Qed.

Lemma find_app_found p l1 (x : CartItem) l2 :
  find p l1 = None -> p x = true -> find p (l1 ++ x :: l2) = Some x.
Proof.
  intros Hl1 Hx. induction l1 as [|y l1 IH]; simpl in *.
  - rewrite Hx. reflexivity.
  - destruct (p y); [discriminate | auto].
Qed.

Lemma item_count_app l1 l2 :
  item_count (l1 ++ l2) = item_count l1 + item_count l2.
Proof. induction l1 as [|x l1 IH]; simpl; [reflexivity | lia]. Qed.

(** ** The state after a click on the product grid, under its conditions *)

Lemma grid_increment_eq st btn i card cardId item :
  closest_card btn = Some i -> nth_error (cards st) i = Some card ->
  card_id card = Some cardId -> cardId <> "" ->
  JS.contains (classList btn) "increment-btn" = true ->
  find (has_id cardId) (cart st) = Some item ->
  productGrid_click (Some btn) st
  = updateCart
      (with_card i (updateButtonState (quantity item + 1))
         (set_cart
            (update_found (has_id cardId)
               (set_quantity (quantity item + 1)) (cart st)) st)).
Proof.
  intros Hi Hnth Hid Hne Hinc Hfind. apply String.eqb_neq in Hne.
  unfold productGrid_click. rewrite Hi, Hnth, Hid, Hne, Hinc, Hfind.
  reflexivity.
Qed.

Lemma grid_decrement_eq st btn i card cardId item :
  closest_card btn = Some i -> nth_error (cards st) i = Some card ->
  card_id card = Some cardId -> cardId <> "" ->
  JS.contains (classList btn) "increment-btn" = false ->
  JS.contains (classList btn) "decrement-btn" = true ->
  find (has_id cardId) (cart st) = Some item ->
  productGrid_click (Some btn) st
  = if quantity item - 1 =? 0
    then updateCart
           (with_card i resetButtonState
              (set_cart (filter (has_other_id cardId) (cart st)) st))
    else updateCart
           (with_card i (updateButtonState (quantity item - 1))
              (set_cart
                 (update_found (has_id cardId)
                    (set_quantity (quantity item - 1)) (cart st)) st)).
Proof.
  intros Hi Hnth Hid Hne Hinc Hdec Hfind. apply String.eqb_neq in Hne.
  unfold productGrid_click. rewrite Hi, Hnth, Hid, Hne, Hinc, Hdec, Hfind.
  destruct (quantity item - 1 =? 0); [|reflexivity].
  unfold with_card, set_cards, set_cart. simpl.
  rewrite filter_update_found by reflexivity. reflexivity.
Qed.


Lemma quantity_selector_updateButtonState q card :
  quantity_selector (updateButtonState q card) = Some q.
Proof. unfold updateButtonState. destruct (quantity_selector card); reflexivity. Qed.

(** ** Incrementing *)

(** X1. For every state of the cart and every card with product id [pid],
    a click on a button of the card that has the class [increment-btn]
    (whatever other classes it has) adds 1 to the quantity of the cart's
    entry for [pid], in place, every other entry staying as it is; the sum
    of the quantities goes up by 1, the cart panel shows the new sum, and
    the card shows the new quantity.  When the cart has no entry for
    [pid], nothing changes. *)
Theorem increment_click :
  forall (st : State) (btn : Button) (i : nat) (card : Card) (pid : string),
    closest_card btn = Some i ->
    nth_error (cards st) i = Some card ->
    card_id card = Some pid -> pid <> "" ->
    JS.contains (classList btn) "increment-btn" = true ->
    let st' := productGrid_click (Some btn) st in
    (forall item,
        find (has_id pid) (cart st) = Some item ->
        (exists l1 l2,
            cart st = l1 ++ item :: l2
            /\ cart st' = l1 ++ set_quantity (quantity item + 1) item :: l2)
        /\ item_count (cart st') = item_count (cart st) + 1
        /\ panel_count (cartSection st') = Some (item_count (cart st) + 1)
        /\ option_map quantity_selector (nth_error (cards st') i)
           = Some (Some (quantity item + 1)))
    /\ (find (has_id pid) (cart st) = None -> st' = st).
Proof.
  intros st btn i card pid Hi Hnth Hid Hne Hinc st'. split.
  - intros item Hfind. unfold st'.
    rewrite (grid_increment_eq _ _ _ _ _ _ Hi Hnth Hid Hne Hinc Hfind).
    destruct (update_found_split _ (set_quantity (quantity item + 1)) _ _ Hfind)
      as (l1 & l2 & H1 & H2 & _).
    assert (Hcount :
              item_count (update_found (has_id pid)
                            (set_quantity (quantity item + 1)) (cart st))
              = item_count (cart st) + 1).
    { rewrite H2, H1, !item_count_app. simpl. lia. }
    rewrite cartSection_updateCart, cart_updateCart, cards_updateCart. simpl.
    split; [exists l1, l2; auto|]. split; [assumption|]. split.
    + rewrite <- Hcount, H2. destruct l1; reflexivity.
    + rewrite nth_error_update_nth, Hnth. simpl.
      rewrite quantity_selector_updateButtonState. reflexivity.
  - intros Hfind. apply String.eqb_neq in Hne.
    unfold st', productGrid_click. rewrite Hi, Hnth, Hid, Hne, Hinc, Hfind.
    reflexivity.
Qed.

(** ** Clicks that undo one another *)

Lemma card_id_resetButtonState card :
  card_id (resetButtonState card) = card_id card.
Proof. reflexivity. Qed.

Lemma updateButtonState_twice q1 q2 card :
  updateButtonState q2 (updateButtonState q1 card) = updateButtonState q2 card.
Proof. unfold updateButtonState. destruct (quantity_selector card); reflexivity. Qed.

Lemma resetButtonState_updateButtonState q card :
  resetButtonState (updateButtonState q card) = resetButtonState card.
Proof.
  unfold updateButtonState, resetButtonState.
  destruct (quantity_selector card); simpl; [reflexivity|].
  destruct (button card); reflexivity.
Qed.

(** X2. For every state whose cart has an entry for the id of a card, with
    a quantity other than 0: a click on the card's increment control
    followed by a click on its decrement control leaves the cart exactly as
    it was, and the card shows the quantity of the entry.  When the
    quantity is not 1 either, the same holds for the decrement click
    followed by the increment click. *)
Theorem increment_decrement_round_trip :
  forall (st : State) (inc dec : Button) (i : nat) (card : Card)
         (pid : string) (item : CartItem),
    closest_card inc = Some i -> closest_card dec = Some i ->
    nth_error (cards st) i = Some card ->
    card_id card = Some pid -> pid <> "" ->
    JS.contains (classList inc) "increment-btn" = true ->
    JS.contains (classList dec) "increment-btn" = false ->
    JS.contains (classList dec) "decrement-btn" = true ->
    find (has_id pid) (cart st) = Some item ->
    quantity item <> 0 ->
    let up_down := productGrid_click (Some dec) (productGrid_click (Some inc) st) in
    let down_up := productGrid_click (Some inc) (productGrid_click (Some dec) st) in
    cart up_down = cart st
    /\ option_map quantity_selector (nth_error (cards up_down) i)
       = Some (Some (quantity item))
    /\ (quantity item <> 1 ->
        cart down_up = cart st
        /\ option_map quantity_selector (nth_error (cards down_up) i)
           = Some (Some (quantity item))).
Proof.
  intros st inc dec i card pid item Hinc_i Hdec_i Hnth Hid Hne
    Hinc Hdec_inc Hdec Hfind Hq up_down down_up.
  destruct (update_found_split (has_id pid) (fun x => x) _ _ Hfind)
    as (l1 & l2 & Hsplit & _ & Hl1).
  assert (Hitem : has_id pid item = true)
    by (apply find_some in Hfind; tauto).
  assert (Hback : forall q,
            update_found (has_id pid) (set_quantity (quantity item))
              (update_found (has_id pid) (set_quantity q) (cart st))
            = cart st).
  { intros q. rewrite Hsplit.
    rewrite (update_found_app _ _ _ _ _ Hl1 Hitem).
    rewrite (update_found_app _ _ _ _ _ Hl1) by exact Hitem.
    change (set_quantity (quantity item) (set_quantity q item))
      with (set_quantity (quantity item) item).
    rewrite set_quantity_same. reflexivity. }
  assert (Hround : forall first second q,
            first = updateCart
                      (with_card i (updateButtonState q)
                         (set_cart
                            (update_found (has_id pid) (set_quantity q) (cart st))
                            st)) ->
            second = updateCart
                       (with_card i (updateButtonState (quantity item))
                          (set_cart
                             (update_found (has_id pid)
                                (set_quantity (quantity item)) (cart first))
                             first)) ->
            cart second = cart st
            /\ option_map quantity_selector (nth_error (cards second) i)
               = Some (Some (quantity item))).
  { intros first second q -> ->. split.
    - repeat (rewrite cart_updateCart; simpl). apply Hback.
    - repeat (rewrite cards_updateCart; simpl).
      rewrite !nth_error_update_nth, Hnth. simpl.
      rewrite quantity_selector_updateButtonState. reflexivity. }
  assert (Hafter : forall q first,
            first = updateCart
                      (with_card i (updateButtonState q)
                         (set_cart
                            (update_found (has_id pid) (set_quantity q) (cart st))
                            st)) ->
            nth_error (cards first) i = Some (updateButtonState q card)
            /\ find (has_id pid) (cart first) = Some (set_quantity q item)).
  { intros q first ->. rewrite cart_updateCart, cards_updateCart. simpl.
    rewrite nth_error_update_nth, Hnth.
    split; [reflexivity | apply find_update_found; assumption]. }
  assert (Hup : cart up_down = cart st
                /\ option_map quantity_selector (nth_error (cards up_down) i)
                   = Some (Some (quantity item))).
  { pose proof (grid_increment_eq _ _ _ _ _ _ Hinc_i Hnth Hid Hne Hinc Hfind)
      as Hfirst.
    destruct (Hafter _ _ Hfirst) as [Hnth1 Hfind1].
    eapply (Hround _ up_down); [exact Hfirst|].
    unfold up_down.
    rewrite (grid_decrement_eq _ _ _ _ _ _ Hdec_i Hnth1
               (eq_trans (card_id_updateButtonState _ _) Hid) Hne
               Hdec_inc Hdec Hfind1).
    simpl. replace (quantity item + 1 - 1) with (quantity item) by lia.
    destruct (quantity item =? 0) eqn:E; [apply Z.eqb_eq in E; contradiction|].
    reflexivity. }
  destruct Hup as [Hup1 Hup2]. split; [exact Hup1|]. split; [exact Hup2|].
  intros Hq1.
  pose proof (grid_decrement_eq _ _ _ _ _ _ Hdec_i Hnth Hid Hne
                Hdec_inc Hdec Hfind) as Hfirst.
  destruct (quantity item - 1 =? 0) eqn:E; [apply Z.eqb_eq in E; lia|].
  destruct (Hafter _ _ Hfirst) as [Hnth1 Hfind1].
  eapply (Hround _ down_up); [exact Hfirst|].
  unfold down_up.
  rewrite (grid_increment_eq _ _ _ _ _ _ Hinc_i Hnth1
               (eq_trans (card_id_updateButtonState _ _) Hid) Hne
               Hinc Hfind1).
    simpl. replace (quantity item - 1 + 1) with (quantity item) by lia.
    reflexivity.
Qed.



(** ** Looking a card up by its id *)

Lemma find_index_Some {A : Type} (p : A -> bool) l i :
  find_index p l = Some i ->
  exists x, nth_error l i = Some x /\ p x = true
            /\ forall j y, (j < i)%nat -> nth_error l j = Some y -> p y = false.
Proof.
  revert i. induction l as [|x l IH]; simpl; intros i H; [discriminate|].
  destruct (p x) eqn:E.
  - injection H as <-. exists x. repeat split; auto. intros j y Hj. lia.
  - destruct (find_index p l) as [k|]; [|discriminate].
    injection H as <-. destruct (IH k eq_refl) as (y & Hy & Hp & Hfirst).
    exists y. repeat split; auto.
    intros [|j] z Hj Hz; simpl in Hz.
    + injection Hz as <-. assumption.
    + apply (Hfirst j); [lia | assumption].
Qed.

Lemma find_index_None {A : Type} (p : A -> bool) l :
  find_index p l = None -> forall x, In x l -> p x = false.
Proof.
  induction l as [|x l IH]; simpl; intros H y Hy; [contradiction|].
  destruct (p x) eqn:E; [discriminate|].
  destruct (find_index p l); [discriminate|].
  destruct Hy as [<-|Hy]; auto.
Qed.

Lemma card_has_id_true card productId :
  match card_id card with
  | Some t => (t =? productId)%string
  | None => false
  end = true <-> card_id card = Some productId.
Proof.
  destruct (card_id card) as [t|].
  - rewrite String.eqb_eq. split; congruence.
  - split; discriminate.
Qed.

Lemma card_has_id_false card productId :
  match card_id card with
  | Some t => (t =? productId)%string
  | None => false
  end = false <-> card_id card <> Some productId.
Proof.
  rewrite <- card_has_id_true. destruct (match card_id card with
                                         | Some t => (t =? productId)%string
                                         | None => false end);
    split; congruence.
Qed.

Lemma findProductCardById_Some st productId i :
  findProductCardById productId st = Some i ->
  exists card,
    nth_error (cards st) i = Some card /\ card_id card = Some productId
    /\ forall j c, (j < i)%nat -> nth_error (cards st) j = Some c ->
                   card_id c <> Some productId.
Proof.
  intros H. apply find_index_Some in H.
  destruct H as (card & Hnth & Hp & Hfirst). exists card.
  split; [assumption|]. split; [apply card_has_id_true; assumption|].
  intros j c Hj Hc. apply card_has_id_false. eapply Hfirst; eauto.
Qed.

Lemma findProductCardById_None st productId :
  findProductCardById productId st = None ->
  forall c, In c (cards st) -> card_id c <> Some productId.
Proof.
  intros H c Hc. apply card_has_id_false.
  exact (find_index_None _ _ H c Hc).
Qed.

(** X4. [findProductCardById] returns the index of the first card of the
    page whose trimmed name is the id asked for, and returns nothing
    exactly when no card of the page has that trimmed name. *)
Theorem findProductCardById_first_match :
  forall (st : State) (productId : string),
    (forall i,
        findProductCardById productId st = Some i ->
        exists card,
          nth_error (cards st) i = Some card
          /\ card_id card = Some productId
          /\ forall j c, (j < i)%nat -> nth_error (cards st) j = Some c ->
                         card_id c <> Some productId)
    /\ (findProductCardById productId st = None <->
        forall c, In c (cards st) -> card_id c <> Some productId).
Proof.
  intros st productId. split; [apply findProductCardById_Some|]. split.
  - apply findProductCardById_None.
  - intros Hnone.
    destruct (findProductCardById productId st) as [i|] eqn:E; [|reflexivity].
    destruct (findProductCardById_Some _ _ _ E) as (card & Hnth & Hid & _).
    exfalso. apply (Hnone card); [|assumption].
    eapply nth_error_In; eauto.
Qed.

Lemma panel_count_updateCart st :
  panel_count (cartSection (updateCart st)) = Some (item_count (cart st)).
Proof.
  rewrite cartSection_updateCart.
  destruct (cart st); [|reflexivity].
  destruct (cartSection st) as [[b|]| |]; reflexivity.
Qed.

(** X5. For every state and every non-empty id, a click on a remove control
    that carries the id puts the first card of the page with that id back to
    its "add" display and leaves every other card as it is (also a later
    card with the same name); when no card has the id, no card changes.
    The card put back is the card it was, with its name, price and image,
    without quantity selector and with its button, when it has one,
    displayed as a block.  The modal is not touched, and the cart panel
    shows the sum of the quantities left in the cart. *)
Theorem remove_click_resets_card :
  forall (st : State) (pid : string) (targetClasses : list string),
    pid <> "" ->
    let st' := cartSection_click (Some (Some pid)) targetClasses st in
    (forall i,
        findProductCardById pid st = Some i ->
        (exists card,
            nth_error (cards st) i = Some card
            /\ card_id card = Some pid
            /\ nth_error (cards st') i = Some (resetButtonState card)
            /\ shows_add (resetButtonState card) = true
            /\ exists card',
                nth_error (cards st') i = Some card'
                /\ back_to_add card card'
                /\ shows_add card' = true)
        /\ (forall j, j <> i -> nth_error (cards st') j = nth_error (cards st) j))
    /\ (findProductCardById pid st = None -> cards st' = cards st)
    /\ modalOverlay st' = modalOverlay st
    /\ panel_count (cartSection st') = Some (item_count (cart st')).
Proof.
  intros st pid targetClasses Hne st'.
  assert (Hst' : st' = updateCart
            (match findProductCardById pid st with
             | Some i =>
                 with_card i resetButtonState
                   (set_cart (filter (has_other_id pid) (cart st)) st)
             | None => set_cart (filter (has_other_id pid) (cart st)) st
             end)).
  { unfold st', cartSection_click. apply String.eqb_neq in Hne. rewrite Hne.
    destruct (findProductCardById pid st); reflexivity. }
  split; [|split; [|split]].
  - intros i Hfound. rewrite Hst', Hfound, cards_updateCart. simpl.
    destruct (findProductCardById_Some _ _ _ Hfound) as (card & Hnth & Hid & _).
    split.
    + exists card. rewrite nth_error_update_nth, Hnth.
      split; [reflexivity|]. split; [assumption|]. split; [reflexivity|].
      split; [apply shows_add_resetButtonState|].
      exists (resetButtonState card). split; [reflexivity|].
      split; [apply back_to_add_resetButtonState
             | apply shows_add_resetButtonState].
    + intros j Hj. apply nth_error_update_nth_other. congruence.
  - intros Hnone. rewrite Hst', Hnone, cards_updateCart. reflexivity.
  - rewrite Hst', modalOverlay_updateCart.
    destruct (findProductCardById pid st); reflexivity.
  - rewrite Hst', cart_updateCart. apply panel_count_updateCart.
Qed.

(** ** What the script never writes *)

Lemma card_markup_updateButtonState q card :
  card_markup (updateButtonState q card) = card_markup card.
Proof.
  unfold updateButtonState, card_markup.
  destruct (quantity_selector card); simpl; [reflexivity|].
  destruct (button card); reflexivity.
Qed.

Lemma card_markup_resetButtonState card :
  card_markup (resetButtonState card) = card_markup card.
Proof.
  unfold resetButtonState, card_markup. simpl.
  destruct (button card); reflexivity.
Qed.

Lemma card_markup_handle st e :
  map card_markup (cards (handle st e)) = map card_markup (cards st).
Proof.
  destruct e as [target|removeBtn targetClasses|]; simpl.
  - destruct (productGrid_click_cases target st)
      as [->|(btn & i & card & cardId & _ & _ & _ & _ & _ & Hstep)];
      [reflexivity|].
    destruct Hstep; rewrite ?cards_updateCart; unfold with_card; simpl;
      rewrite ?cards_updateCart; simpl; apply map_update_nth;
      intros x;
      first [apply card_markup_updateButtonState
            | apply card_markup_resetButtonState].
  - destruct (cartSection_click_cases removeBtn targetClasses st)
      as [->|[(productId & _ & _ & ->)|(_ & ->)]]; [reflexivity| |].
    + rewrite cards_updateCart.
      destruct (findProductCardById productId st); simpl; [|reflexivity].
      apply map_update_nth. apply card_markup_resetButtonState.
    + unfold showConfirmationModal. cbv zeta.
      destruct (fold_left _ _ _) as [? ?].
      destruct (modal_order_summary (modalOverlay st)),
        (modal_total_price (modalOverlay st)); reflexivity.
  - unfold resetOrder. rewrite cards_updateCart. simpl.
    rewrite map_map. apply map_ext. apply card_markup_resetButtonState.
Qed.

Lemma card_markup_run es st :
  map card_markup (cards (run es st)) = map card_markup (cards st).
Proof.
  revert st. induction es as [|e es IH]; intros st; simpl; [reflexivity|].
  rewrite IH. apply card_markup_handle.
Qed.

(** X6. No sequence of clicks ever adds, removes or reorders the cards of
    the page, or changes the name, the price or the image of a card, or
    whether it has a [.button]: the script writes only the display of the
    button and the quantity selector. *)
Theorem cards_markup_is_never_written :
  forall (es : list Event) (st : State),
    List.length (cards (run es st)) = List.length (cards st)
    /\ map cart_name (cards (run es st)) = map cart_name (cards st)
    /\ map card_price (cards (run es st)) = map card_price (cards st)
    /\ map img (cards (run es st)) = map img (cards st)
    /\ map card_markup (cards (run es st)) = map card_markup (cards st).
Proof.
  intros es st. pose proof (card_markup_run es st) as H.
  split; [|split; [|split; [|split]]].
  - apply (f_equal (@List.length _)) in H. rewrite !length_map in H. exact H.
  - apply (f_equal (map (fun t => fst (fst (fst t))))) in H.
    rewrite !map_map in H. exact H.
  - apply (f_equal (map (fun t => snd (fst (fst t))))) in H.
    rewrite !map_map in H. exact H.
  - apply (f_equal (map (fun t => snd (fst t)))) in H.
    rewrite !map_map in H. exact H.
  - exact H.
Qed.

(** ** Where the entries of the cart come from *)

Lemma id_of_card_Some card pid :
  id_of_card card = Some pid <-> card_id card = Some pid /\ pid <> "".
Proof.
  unfold id_of_card. destruct (card_id card) as [s|].
  - destruct (s =? "")%string eqn:E.
    + apply String.eqb_eq in E. subst s.
      split; [discriminate | intros [H Hne]; congruence].
    + apply String.eqb_neq in E.
      split; [intros H; injection H as <-; auto | intros [H _]; congruence].
  - split; [discriminate | intros [H _]; discriminate].
Qed.

Lemma card_ids_markup cs cs' :
  map card_markup cs = map card_markup cs' -> card_ids cs = card_ids cs'.
Proof.
  revert cs'. induction cs as [|c cs IH]; intros [|c' cs'] H;
    try discriminate; [reflexivity|].
  simpl in H. inversion H as [[Hname Hprice Himg Hbutton Hcs]].
  unfold card_ids. simpl. fold (card_ids cs) (card_ids cs').
  rewrite (IH _ Hcs).
  unfold id_of_card, card_id. rewrite Hname. reflexivity.
Qed.

Lemma card_ids_run es st : card_ids (cards (run es st)) = card_ids (cards st).
Proof. apply card_ids_markup, card_markup_run. Qed.

Lemma in_card_ids cs j card pid :
  nth_error cs j = Some card -> id_of_card card = Some pid ->
  In pid (card_ids cs).
Proof.
  intros Hnth Hid. unfold card_ids. apply in_flat_map.
  exists card. split; [eapply nth_error_In; eauto|].
  rewrite Hid. left. reflexivity.
Qed.

Lemma card_of_card_id cs pid :
  In pid (card_ids cs) ->
  exists j card, nth_error cs j = Some card /\ id_of_card card = Some pid.
Proof.
  unfold card_ids. intros H. apply in_flat_map in H.
  destruct H as (card & Hin & Hpid).
  destruct (In_nth_error _ _ Hin) as [j Hj]. exists j, card.
  split; [assumption|].
  destruct (id_of_card card) as [s|]; simpl in Hpid; [|contradiction].
  destruct Hpid as [->|[]]. reflexivity.
Qed.

(** An entry as [addToCart] makes them, up to its quantity. *)
Lemma entry_from_card_handle (Q : CartItem -> Prop) st e :
  (forall q item, Q item -> Q (set_quantity q item)) ->
  (forall i card cardId,
      nth_error (cards st) i = Some card -> card_id card = Some cardId ->
      cardId <> "" -> Q (new_item cardId card)) ->
  Forall Q (cart st) -> Forall Q (cart (handle st e)).
Proof.
  intros Hset Hnew HQ. destruct e as [target|removeBtn targetClasses|]; simpl.
  - destruct (cart_productGrid_click target st)
      as [->|(btn & i & card & cardId & _ & _ & Hnth & Hid & Hne & H)];
      [assumption|].
    destruct H as [(item & Hfind & _ & ->)
                  |[(item & Hfind & _ & _ & _ & ->)
                  |[(item & _ & _ & _ & _ & ->)
                  |(_ & _ & _ & ->)]]].
    + eapply Forall_update_found; eauto. apply Hset.
      apply find_some in Hfind. rewrite Forall_forall in HQ. apply HQ. tauto.
    + eapply Forall_update_found; eauto. apply Hset.
      apply find_some in Hfind. rewrite Forall_forall in HQ. apply HQ. tauto.
    + apply Forall_filter. assumption.
    + rewrite (cart_addToCart _ _ _ _ Hnth Hid Hne).
      apply Forall_app. split; [assumption|].
      constructor; [|constructor]. exact (Hnew _ _ _ Hnth Hid Hne).
  - destruct (cart_cartSection_click removeBtn targetClasses st)
      as [->|(productId & _ & _ & ->)]; [assumption|].
    apply Forall_filter. assumption.
  - rewrite cart_resetOrder. constructor.
Qed.

Lemma entries_from_cards_run es st :
  Forall (fun item =>
            id item <> "" /\ name item = id item
            /\ is_nan (price item) = false
            /\ In (id item) (card_ids (cards st))) (cart st) ->
  Forall (fun item =>
            id item <> "" /\ name item = id item
            /\ is_nan (price item) = false
            /\ In (id item) (card_ids (cards st))) (cart (run es st)).
Proof.
  revert st. induction es as [|e es IH]; intros st H; simpl; [assumption|].
  assert (Hids : card_ids (cards (handle st e)) = card_ids (cards st))
    by apply (card_ids_run [e] st).
  rewrite <- Hids. apply IH. rewrite Hids.
  apply entry_from_card_handle; [| |assumption].
  - intros q item HQ. exact HQ.
  - intros i card cardId Hnth Hid Hne. simpl.
    split; [assumption|]. split; [reflexivity|].
    split; [apply productPrice_not_nan|].
    eapply in_card_ids; [eassumption|].
    apply id_of_card_Some. auto.
Qed.

(** X7. In every state reached from the empty cart by any sequence of
    clicks, every entry of the cart was made from a card of the page: its
    id is not empty and is the trimmed name of a card, its name is its id,
    its price is a number ([NaN] is never stored), and
    [findProductCardById] finds a card for its id. *)
Theorem entries_come_from_cards :
  forall (cs : list Card) (p : CartSection) (m : Modal) (es : list Event),
    let st := run es (initial cs p m) in
    forall item,
      In item (cart st) ->
      id item <> ""
      /\ name item = id item
      /\ is_nan (price item) = false
      /\ (exists j card,
             nth_error cs j = Some card /\ card_id card = Some (id item))
      /\ findProductCardById (id item) st <> None.
Proof.
  intros cs p m es st item Hin.
  pose proof (entries_from_cards_run es (initial cs p m) (Forall_nil _)) as H.
  rewrite Forall_forall in H. destruct (H item Hin) as (Hne & Hname & Hnan & Hid).
  simpl in Hid.
  split; [assumption|]. split; [assumption|]. split; [assumption|].
  destruct (card_of_card_id _ _ Hid) as (j & card & Hnth & Hcard).
  apply id_of_card_Some in Hcard. destruct Hcard as [Hcard _].
  split; [exists j, card; auto|].
  intros Hnone.
  pose proof (card_ids_run es (initial cs p m)) as Hids. simpl in Hids.
  fold st in Hids. rewrite <- Hids in Hid.
  destruct (card_of_card_id _ _ Hid) as (j' & card' & Hnth' & Hcard').
  apply id_of_card_Some in Hcard'. destruct Hcard' as [Hcard' _].
  apply (findProductCardById_None _ _ Hnone card');
    [eapply nth_error_In; eauto | assumption].
Qed.

(** ** The cards mirror the cart *)

Lemma find_update_found_other p p' q l :
  p' <> p ->
  find (has_id p') (update_found (has_id p) (set_quantity q) l)
  = find (has_id p') l.
Proof.
  intros Hne. induction l as [|x l IH]; simpl; [reflexivity|].
  destruct (has_id p x) eqn:E; simpl.
  - apply has_id_true in E.
    assert (Hx : has_id p' x = false).
    { destruct (has_id p' x) eqn:E'; [|reflexivity].
      apply has_id_true in E'. congruence. }
    unfold has_id in *. simpl. rewrite Hx. reflexivity.
  - rewrite IH. reflexivity.
Qed.

Lemma find_filter_other p p' l :
  p' <> p ->
  find (has_id p') (filter (has_other_id p) l) = find (has_id p') l.
Proof.
  intros Hne. induction l as [|x l IH]; simpl; [reflexivity|].
  destruct (has_other_id p x) eqn:E; simpl.
  - rewrite IH. reflexivity.
  - rewrite IH. destruct (has_id p' x) eqn:E'; [|reflexivity].
    apply has_id_true in E'. unfold has_other_id in E.
    apply negb_false_iff, String.eqb_eq in E. congruence.
Qed.

Lemma find_push_other p' l item :
  id item <> p' -> find (has_id p') (l ++ [item]) = find (has_id p') l.
Proof.
  intros Hne. induction l as [|x l IH]; simpl.
  - destruct (has_id p' item) eqn:E; [|reflexivity].
    apply has_id_true in E. contradiction.
  - destruct (has_id p' x); auto.
Qed.

Lemma id_of_card_updateButtonState q card :
  id_of_card (updateButtonState q card) = id_of_card card.
Proof. unfold id_of_card. rewrite card_id_updateButtonState. reflexivity. Qed.

Lemma id_of_card_resetButtonState card :
  id_of_card (resetButtonState card) = id_of_card card.
Proof. reflexivity. Qed.

(** Two cards of a page with distinct ids that have the same id are the
    same card. *)
Lemma card_ids_distinct cs i j c c' pid :
  NoDup (card_ids cs) ->
  nth_error cs i = Some c -> nth_error cs j = Some c' ->
  id_of_card c = Some pid -> id_of_card c' = Some pid -> i = j.
Proof.
  revert i j. induction cs as [|x cs IH]; intros i j Hnd Hi Hj Hc Hc'.
  - destruct i; discriminate.
  - unfold card_ids in Hnd. simpl in Hnd. fold (card_ids cs) in Hnd.
    destruct i as [|i], j as [|j]; simpl in Hi, Hj.
    + reflexivity.
    + injection Hi as ->. rewrite Hc in Hnd. simpl in Hnd.
      inversion Hnd as [|? ? Hnotin _]; subst. exfalso. apply Hnotin.
      eapply in_card_ids; eauto.
    + injection Hj as ->. rewrite Hc' in Hnd. simpl in Hnd.
      inversion Hnd as [|? ? Hnotin _]; subst. exfalso. apply Hnotin.
      eapply in_card_ids; eauto.
    + f_equal. eapply IH; eauto.
      destruct (id_of_card x); simpl in Hnd; [|assumption].
      inversion Hnd; assumption.
Qed.

Lemma mirrors_other l l' card :
  (forall pid, id_of_card card = Some pid ->
               find (has_id pid) l' = find (has_id pid) l) ->
  mirrors l card -> mirrors l' card.
Proof.
  unfold mirrors. intros H. destruct (id_of_card card) as [pid|]; [|auto].
  rewrite (H pid eq_refl). auto.
Qed.

(** The card at index [i] gets a new display and the cart a new entry for
    its id, the other entries being found as before: the cards still mirror
    the cart. *)
Lemma mirrors_update st i card cardId l' f :
  NoDup (card_ids (cards st)) ->
  (forall j c, nth_error (cards st) j = Some c -> mirrors (cart st) c) ->
  nth_error (cards st) i = Some card ->
  id_of_card card = Some cardId ->
  (forall p', p' <> cardId -> find (has_id p') l' = find (has_id p') (cart st)) ->
  id_of_card (f card) = id_of_card card ->
  quantity_selector (f card) = option_map quantity (find (has_id cardId) l') ->
  forall j c, nth_error (update_nth i f (cards st)) j = Some c -> mirrors l' c.
Proof.
  intros Hnd HM Hnth Hid Hother Hfid Hsel j c Hc.
  destruct (Nat.eq_dec i j) as [<-|Hij].
  - rewrite nth_error_update_nth, Hnth in Hc. injection Hc as <-.
    unfold mirrors. rewrite Hfid, Hid. assumption.
  - rewrite nth_error_update_nth_other in Hc by assumption.
    apply (mirrors_other (cart st)); [|apply (HM j); assumption].
    intros pid Hpid. apply Hother. intros ->.
    apply Hij. eapply card_ids_distinct; eauto.
Qed.

Lemma mirrors_handle st e :
  NoDup (card_ids (cards st)) ->
  (forall j c, nth_error (cards st) j = Some c -> mirrors (cart st) c) ->
  forall j c,
    nth_error (cards (handle st e)) j = Some c -> mirrors (cart (handle st e)) c.
Proof.
  intros Hnd HM. destruct e as [target|removeBtn targetClasses|]; simpl.
  - destruct (productGrid_click_cases target st)
      as [->|(btn & i & card & cardId & _ & _ & Hnth & Hid & Hne & Hstep)];
      [assumption|].
    assert (Hcard : id_of_card card = Some cardId)
      by (apply id_of_card_Some; auto).
    remember (productGrid_click target st) as st' eqn:Hst'. clear Hst'.
    destruct Hstep as [item Hfind _|item Hfind _ _ _|item Hfind _ _ _|Hfind _ _];
      rewrite ?cart_updateCart, ?cards_updateCart; unfold with_card; simpl;
      rewrite ?cart_updateCart, ?cards_updateCart; simpl;
      apply (mirrors_update st i card cardId); auto.
    + intros p' Hp. apply find_update_found_other. assumption.
    + apply id_of_card_updateButtonState.
    + rewrite quantity_selector_updateButtonState,
        (find_update_found _ _ _ _ Hfind). reflexivity.
    + intros p' Hp. apply find_update_found_other. assumption.
    + apply id_of_card_updateButtonState.
    + rewrite quantity_selector_updateButtonState,
        (find_update_found _ _ _ _ Hfind). reflexivity.
    + intros p' Hp. apply find_filter_other. assumption.
    + rewrite find_filter_has_other_id. reflexivity.
    + intros p' Hp. apply find_push_other. simpl. congruence.
    + apply id_of_card_updateButtonState.
    + rewrite quantity_selector_updateButtonState,
        (find_push_absent cardId _ (new_item cardId card) Hfind eq_refl).
      reflexivity.
  - destruct (cartSection_click_cases removeBtn targetClasses st)
      as [->|[(productId & _ & Hne & ->)|(_ & ->)]]; [assumption| |].
    + rewrite cart_updateCart, cards_updateCart.
      destruct (findProductCardById productId st) as [i|] eqn:Hfound; simpl.
      * destruct (findProductCardById_Some _ _ _ Hfound)
          as (card & Hnth & Hid & _).
        apply (mirrors_update st i card productId); auto.
        -- apply id_of_card_Some. auto.
        -- intros p' Hp. apply find_filter_other. assumption.
        -- rewrite find_filter_has_other_id. reflexivity.
      * intros j c Hc.
        apply (mirrors_other (cart st)); [|apply (HM j); assumption].
        intros pid Hpid. apply find_filter_other. intros ->.
        apply id_of_card_Some in Hpid. destruct Hpid as [Hpid _].
        apply (findProductCardById_None _ _ Hfound c);
          [eapply nth_error_In; eauto | assumption].
    + rewrite cart_showConfirmationModal.
      replace (cards (showConfirmationModal st)) with (cards st); [assumption|].
      unfold showConfirmationModal. cbv zeta.
      destruct (fold_left _ _ _) as [? ?].
      destruct (modal_order_summary (modalOverlay st)),
        (modal_total_price (modalOverlay st)); reflexivity.
  - rewrite cart_resetOrder. unfold resetOrder. rewrite cards_updateCart. simpl.
    intros j c Hc. rewrite nth_error_map in Hc.
    destruct (nth_error (cards st) j) as [c0|]; [|discriminate].
    injection Hc as <-. unfold mirrors.
    destruct (id_of_card (resetButtonState c0)); reflexivity.
Qed.

Lemma button_synced_updateButtonState q card :
  button_synced card = true -> button_synced (updateButtonState q card) = true.
Proof.
  unfold button_synced, updateButtonState.
  destruct (quantity_selector card), (button card) as [[| | |]|];
    simpl; auto.
Qed.

Lemma button_synced_resetButtonState card :
  button_synced (resetButtonState card) = true.
Proof.
  unfold button_synced, resetButtonState. simpl.
  destruct (button card); reflexivity.
Qed.

Lemma button_synced_handle st e :
  Forall (fun c => button_synced c = true) (cards st) ->
  Forall (fun c => button_synced c = true) (cards (handle st e)).
Proof.
  intros H. destruct e as [target|removeBtn targetClasses|]; simpl.
  - destruct (productGrid_click_cases target st)
      as [->|(btn & i & card & cardId & _ & _ & _ & _ & _ & Hstep)];
      [assumption|].
    destruct Hstep; rewrite ?cards_updateCart; unfold with_card; simpl;
      rewrite ?cards_updateCart; simpl; apply Forall_update_nth; auto;
      intros x Hx;
      first [apply button_synced_updateButtonState; assumption
            | apply button_synced_resetButtonState].
  - destruct (cartSection_click_cases removeBtn targetClasses st)
      as [->|[(productId & _ & _ & ->)|(_ & ->)]]; [assumption| |].
    + rewrite cards_updateCart.
      destruct (findProductCardById productId st); simpl; [|assumption].
      apply Forall_update_nth; auto.
      intros x _. apply button_synced_resetButtonState.
    + replace (cards (showConfirmationModal st)) with (cards st); [assumption|].
      unfold showConfirmationModal. cbv zeta.
      destruct (fold_left _ _ _) as [? ?].
      destruct (modal_order_summary (modalOverlay st)),
        (modal_total_price (modalOverlay st)); reflexivity.
  - unfold resetOrder. rewrite cards_updateCart. simpl.
    apply Forall_forall. intros c Hc. apply in_map_iff in Hc.
    destruct Hc as (c0 & <- & _). apply button_synced_resetButtonState.
Qed.

Lemma mirror_run es st :
  NoDup (card_ids (cards st)) ->
  (forall j c, nth_error (cards st) j = Some c -> mirrors (cart st) c) ->
  Forall (fun c => button_synced c = true) (cards st) ->
  (forall j c, nth_error (cards (run es st)) j = Some c ->
               mirrors (cart (run es st)) c)
  /\ Forall (fun c => button_synced c = true) (cards (run es st)).
Proof.
  revert st. induction es as [|e es IH]; intros st Hnd HM HB; simpl; [auto|].
  apply IH.
  - change (handle st e) with (run [e] st). rewrite card_ids_run. assumption.
  - apply mirrors_handle; assumption.
  - apply button_synced_handle; assumption.
Qed.

(** X8. On a page whose cards have distinct ids and show their "add"
    control when the script starts, after any sequence of clicks the cards
    mirror the cart.  A card with an id has a quantity selector exactly when
    the cart has an entry for the id, and the selector shows the quantity
    of that entry; a card without id has no selector; a card shows its
    "add" control exactly when it has no selector.  Conversely every entry
    of the cart has a card with its id whose selector shows its quantity. *)
Theorem cards_mirror_cart :
  forall (cs : list Card) (p : CartSection) (m : Modal) (es : list Event),
    NoDup (card_ids cs) ->
    Forall (fun c => shows_add c = true) cs ->
    let st := run es (initial cs p m) in
    (forall j c,
        nth_error (cards st) j = Some c ->
        (forall pid,
            id_of_card c = Some pid ->
            quantity_selector c
            = option_map quantity (find (has_id pid) (cart st)))
        /\ (id_of_card c = None -> quantity_selector c = None)
        /\ (shows_add c = true <-> quantity_selector c = None))
    /\ (forall item,
          In item (cart st) ->
          exists j c,
            nth_error (cards st) j = Some c
            /\ id_of_card c = Some (id item)
            /\ quantity_selector c = Some (quantity item)).
Proof.
  intros cs p m es Hnd Hadd st.
  assert (Hsel : forall c, In c cs -> quantity_selector c = None).
  { intros c Hc. rewrite Forall_forall in Hadd. specialize (Hadd c Hc).
    unfold shows_add in Hadd. destruct (quantity_selector c); [|reflexivity].
    discriminate. }
  destruct (mirror_run es (initial cs p m)) as [HM HB]; simpl.
  - assumption.
  - intros j c Hc. unfold mirrors. rewrite (Hsel c) by (eapply nth_error_In; eauto).
    destruct (id_of_card c); reflexivity.
  - apply Forall_forall. intros c Hc. rewrite Forall_forall in Hadd.
    specialize (Hadd c Hc). unfold shows_add in Hadd. unfold button_synced.
    destruct (quantity_selector c), (button c) as [[| | |]|];
      try discriminate; reflexivity.
  - fold st in HM, HB. split.
    + intros j c Hc. specialize (HM j c Hc). unfold mirrors in HM.
      rewrite Forall_forall in HB.
      specialize (HB c (nth_error_In _ _ Hc)).
      split; [|split].
      * intros pid Hpid. rewrite Hpid in HM. assumption.
      * intros Hnone. rewrite Hnone in HM. assumption.
      * unfold shows_add, button_synced in *.
        destruct (quantity_selector c), (button c) as [[| | |]|];
          try discriminate; split; intros; try discriminate; reflexivity.
    + intros item Hin.
      pose proof (entries_from_cards_run es (initial cs p m) (Forall_nil _)) as H.
      rewrite Forall_forall in H. destruct (H item Hin) as (_ & _ & _ & Hid).
      pose proof (card_ids_run es (initial cs p m)) as Hids.
      fold st in Hids. rewrite <- Hids in Hid.
      destruct (card_of_card_id _ _ Hid) as (j & c & Hnth & Hc).
      exists j, c. split; [assumption|]. split; [assumption|].
      specialize (HM j c Hnth). unfold mirrors in HM. rewrite Hc in HM.
      rewrite HM.
      assert (Hok : cart_ok (cart st))
        by (apply cart_ok_run; split; constructor).
      destruct Hok as [_ Hdup].
      destruct (in_split _ _ Hin) as (l1 & l2 & Hsplit).
      rewrite Hsplit in *.
      destruct (find_split_NoDup _ _ _ Hdup) as [Hfind _].
      rewrite Hfind. reflexivity.
Qed.

(** ** The cart panel follows the cart *)

Lemma cards_showConfirmationModal st : cards (showConfirmationModal st) = cards st.
Proof.
  unfold showConfirmationModal. cbv zeta.
  destruct (fold_left _ _ _) as [? ?].
  destruct (modal_order_summary (modalOverlay st)),
    (modal_total_price (modalOverlay st)); reflexivity.
Qed.

Lemma cartSection_showConfirmationModal st :
  cartSection (showConfirmationModal st) = cartSection st.
Proof.
  unfold showConfirmationModal. cbv zeta.
  destruct (fold_left _ _ _) as [? ?].
  destruct (modal_order_summary (modalOverlay st)),
    (modal_total_price (modalOverlay st)); reflexivity.
Qed.

(** A click either leaves the cart and the cart section alone or leaves
    the cart section rendered from the cart. *)
Lemma handle_panel_cases st e :
  (cart (handle st e) = cart st /\ cartSection (handle st e) = cartSection st)
  \/ rendered (handle st e).
Proof.
  destruct e as [target|removeBtn targetClasses|]; simpl.
  - destruct (productGrid_click_cases target st)
      as [->|(btn & i & card & cardId & _ & _ & _ & _ & _ & Hstep)];
      [left; auto|].
    right. destruct Hstep;
      first [apply rendered_updateCart
            | apply rendered_with_card, rendered_updateCart].
  - destruct (cartSection_click_cases removeBtn targetClasses st)
      as [->|[(productId & _ & _ & ->)|(_ & ->)]]; [left; auto| |].
    + right. apply rendered_updateCart.
    + left. split;
        [apply cart_showConfirmationModal | apply cartSection_showConfirmationModal].
  - right. unfold resetOrder. apply rendered_updateCart.
Qed.

Lemma panel_follows_run es st p :
  (cart st = [] /\ cartSection st = p) \/ rendered st ->
  (cart (run es st) = [] /\ cartSection (run es st) = p) \/ rendered (run es st).
Proof.
  revert st. induction es as [|e es IH]; intros st H; simpl; [assumption|].
  apply IH. destruct (handle_panel_cases st e) as [[Hc Hp]|Hr]; [|auto].
  destruct H as [[H1 H2]|H].
  - left. split; congruence.
  - right. unfold rendered in *. rewrite cartSection_updateCart in *.
    rewrite Hc, Hp. assumption.
Qed.

Lemma item_count_ge_length l :
  Forall (fun item => 1 <= quantity item) l ->
  Z.of_nat (List.length l) <= item_count l.
Proof.
  induction 1 as [|x l Hx Hl IH]; simpl List.length; simpl item_count; lia.
Qed.

Lemma row_text_cart_row l : map row_text (map cart_row l) = map entry_text l.
Proof. rewrite map_map. reflexivity. Qed.

Lemma modal_row_text_modal_row l :
  map modal_row_text (map modal_row l) = map entry_text l.
Proof. rewrite map_map. reflexivity. Qed.

(** The cart panel of a state reached from the empty cart: untouched with
    an empty cart, or the empty-cart message with an empty cart, or the
    list of a cart that is not empty. *)
Lemma reachable_panel es cs p m :
  let st := run es (initial cs p m) in
  (cart st = [] /\ cartSection st = p)
  \/ (cart st = [] /\ shows_empty_cart (cartSection st) = true)
  \/ (cart st <> []
      /\ cartSection st
         = CartList (item_count (cart st)) (map cart_row (cart st))
             (toFixed (grand_total (cart st)) 2)).
Proof.
  intros st.
  pose proof (panel_follows_run es (initial cs p m) p
                (or_introl (conj eq_refl eq_refl))) as H.
  fold st in H. destruct H as [H|Hr]; [left; exact H|].
  right. unfold rendered in Hr. rewrite cartSection_updateCart in Hr.
  destruct (cart st) as [|item l] eqn:E.
  - left. split; [reflexivity|]. rewrite Hr.
    destruct (cartSection st) as [[b|]| |]; reflexivity.
  - right. split; [discriminate | exact Hr].
Qed.

(** X9. In every state reached from the empty cart by any sequence of
    clicks, the cart panel shows the cart as it is now.  With a non-empty
    cart it shows the sum of the quantities, the sum of the line totals and
    one row per entry in cart order, with the name, quantity, unit price
    and line total of the entry, and the item count is at least the number
    of rows.  With an empty cart it shows the empty-cart message, or it is
    still the markup of the page when no click has rendered it. *)
Theorem panel_always_shows_cart :
  forall (cs : list Card) (p : CartSection) (m : Modal) (es : list Event),
    let st := run es (initial cs p m) in
    (cart st <> [] ->
       panel_count (cartSection st) = Some (item_count (cart st))
       /\ panel_total (cartSection st)
          = Some (toFixed (grand_total (cart st)) 2)
       /\ map row_text (panel_rows (cartSection st))
          = map entry_text (cart st)
       /\ 1 <= Z.of_nat (List.length (cart st)) <= item_count (cart st))
    /\ (cart st = [] ->
        cartSection st = p \/ shows_empty_cart (cartSection st) = true).
Proof.
  intros cs p m es st.
  destruct (reachable_panel es cs p m) as [[Hc Hp]|[[Hc Hp]|[Hc Hp]]];
    fold st in Hc, Hp.
  - split; [congruence | auto].
  - split; [congruence | auto].
  - split; [|congruence]. intros _. rewrite Hp. simpl.
    split; [reflexivity|]. split; [reflexivity|].
    split; [apply row_text_cart_row|].
    assert (Hok : cart_ok (cart st))
      by (apply cart_ok_run; split; constructor).
    destruct Hok as [Hq _].
    pose proof (item_count_ge_length _ Hq).
    destruct (cart st); [contradiction|]. simpl List.length in *. lia.
Qed.

(** ** Rendering twice, resetting twice *)

Lemma State_ext (a b : State) :
  cart a = cart b -> cards a = cards b -> cartSection a = cartSection b ->
  modalOverlay a = modalOverlay b -> a = b.
Proof. destruct a, b. simpl. congruence. Qed.

Lemma showConfirmationModal_cases st :
  showConfirmationModal st = st
  \/ (modal_order_summary (modalOverlay st) <> Missing
      /\ modal_total_price (modalOverlay st) <> Missing).
Proof.
  unfold showConfirmationModal. cbv zeta.
  destruct (fold_left _ _ _) as [? ?].
  destruct (modal_order_summary (modalOverlay st)),
    (modal_total_price (modalOverlay st));
    first [left; reflexivity | right; split; discriminate].
Qed.

(** X10. Rendering is idempotent: [updateCart] run twice leaves the state
    that one run leaves, and so does [showConfirmationModal]. *)
Theorem rendering_is_idempotent :
  forall st : State,
    updateCart (updateCart st) = updateCart st
    /\ showConfirmationModal (showConfirmationModal st)
       = showConfirmationModal st.
Proof.
  intros st. split.
  - apply State_ext.
    + rewrite !cart_updateCart. reflexivity.
    + rewrite !cards_updateCart. reflexivity.
    + symmetry. apply rendered_updateCart.
    + rewrite !modalOverlay_updateCart. reflexivity.
  - apply State_ext.
    + rewrite !cart_showConfirmationModal. reflexivity.
    + rewrite !cards_showConfirmationModal. reflexivity.
    + rewrite !cartSection_showConfirmationModal. reflexivity.
    + destruct (showConfirmationModal_cases st) as [H|[Hs Ht]].
      * rewrite !H. reflexivity.
      * pose proof (modalOverlay_showConfirmationModal st Hs Ht) as H.
        rewrite modalOverlay_showConfirmationModal;
          rewrite ?H, ?cart_showConfirmationModal; simpl;
          [reflexivity | discriminate | discriminate].
Qed.

Lemma resetButtonState_markup c c' :
  card_markup c = card_markup c' -> resetButtonState c = resetButtonState c'.
Proof.
  unfold card_markup, resetButtonState. intros H.
  inversion H as [[Hname Hprice Himg Hbutton]].
  destruct (button c), (button c'); try discriminate; reflexivity.
Qed.

Lemma map_resetButtonState_markup cs cs' :
  map card_markup cs = map card_markup cs' ->
  map resetButtonState cs = map resetButtonState cs'.
Proof.
  revert cs'. induction cs as [|c cs IH]; intros [|c' cs'] H;
    try discriminate; [reflexivity|].
  change (card_markup c :: map card_markup cs
          = card_markup c' :: map card_markup cs') in H.
  assert (Hc : card_markup c = card_markup c') by congruence.
  assert (Hcs : map card_markup cs = map card_markup cs') by congruence.
  simpl. rewrite (resetButtonState_markup _ _ Hc), (IH _ Hcs). reflexivity.
Qed.

Lemma resetButtonState_twice card :
  resetButtonState (resetButtonState card) = resetButtonState card.
Proof.
  unfold resetButtonState. simpl. destruct (button card); reflexivity.
Qed.

(** X11. [resetOrder] is idempotent, and it forgets what happened before:
    after any sequence of clicks it leaves the empty cart and the cards
    exactly as it leaves them on the state the clicks started from.  It
    hides the modal without clearing it: the rows and the total the modal
    holds stay as they are. *)
Theorem resetOrder_forgets_the_history :
  forall (st : State) (es : list Event),
    resetOrder (resetOrder st) = resetOrder st
    /\ cart (resetOrder (run es st)) = cart (resetOrder st)
    /\ cards (resetOrder (run es st)) = cards (resetOrder st)
    /\ modal_order_summary (modalOverlay (resetOrder st))
       = modal_order_summary (modalOverlay st)
    /\ modal_total_price (modalOverlay (resetOrder st))
       = modal_total_price (modalOverlay st).
Proof.
  intros st es.
  assert (Hcards : forall s, cards (resetOrder s) = map resetButtonState (cards s))
    by (intros s; unfold resetOrder; rewrite cards_updateCart; reflexivity).
  assert (Hmodal : forall s,
             modalOverlay (resetOrder s)
             = {| modal_order_summary := modal_order_summary (modalOverlay s);
                  modal_total_price := modal_total_price (modalOverlay s);
                  modal_display := display_none |})
    by (intros s; unfold resetOrder; rewrite modalOverlay_updateCart; reflexivity).
  split; [|split; [|split; [|split]]].
  - apply State_ext.
    + rewrite !cart_resetOrder. reflexivity.
    + rewrite !Hcards, map_map. apply map_ext. apply resetButtonState_twice.
    + unfold resetOrder at 1. rewrite cartSection_updateCart. simpl.
      unfold resetOrder. rewrite cartSection_updateCart. simpl.
      destruct (cartSection st) as [[b|]| |]; reflexivity.
    + rewrite (Hmodal (resetOrder st)), (Hmodal st). reflexivity.
  - rewrite !cart_resetOrder. reflexivity.
  - rewrite !Hcards. apply map_resetButtonState_markup, card_markup_run.
  - rewrite Hmodal. reflexivity.
  - rewrite Hmodal. reflexivity.
Qed.

(** ** What the clicks never touch *)

Lemma modalOverlay_productGrid_click target st :
  modalOverlay (productGrid_click target st) = modalOverlay st.
Proof.
  destruct (productGrid_click_cases target st)
    as [->|(btn & i & card & cardId & _ & _ & _ & _ & _ & Hstep)];
    [reflexivity|].
  destruct Hstep; rewrite ?modalOverlay_updateCart; unfold with_card; simpl;
    rewrite ?modalOverlay_updateCart; reflexivity.
Qed.

(** X12. Only the confirm click and the start-new-order click write the
    modal: every click on the product grid and every click on a remove
    control leaves the modal as it is, so a modal that is shown keeps the
    rows and the total of the moment the order was confirmed while the cart
    changes under it. *)
Theorem modal_is_written_only_on_confirm_and_reset :
  forall (st : State) (e : Event),
    (forall targetClasses, e <> CartSectionClick None targetClasses) ->
    e <> StartNewOrderClick ->
    modalOverlay (handle st e) = modalOverlay st.
Proof.
  intros st e Hconfirm Hreset.
  destruct e as [target|[dataset_id|] targetClasses|]; cbn [handle].
  - apply modalOverlay_productGrid_click.
  - destruct (cartSection_click_cases (Some dataset_id) targetClasses st)
      as [->|[(productId & _ & _ & ->)|(H & _)]];
      [reflexivity| |discriminate].
    rewrite modalOverlay_updateCart.
    destruct (findProductCardById productId st); reflexivity.
  - exfalso. exact (Hconfirm targetClasses eq_refl).
  - contradiction.
Qed.

(** X13. Clicks that miss change nothing at all: a click outside any
    button, on a button outside any card, on a card that has no name
    element or whose name is blank (only white space), on a remove control
    without [data-id] or with an empty one, and a click in the cart section
    that is neither on a remove control nor on the confirm control. *)
Theorem missed_clicks_change_nothing :
  forall st : State,
    productGrid_click None st = st
    /\ (forall btn, closest_card btn = None ->
                    productGrid_click (Some btn) st = st)
    /\ (forall btn i card,
          closest_card btn = Some i -> nth_error (cards st) i = Some card ->
          (cart_name card = None
           \/ exists text, cart_name card = Some text /\ JS.trim text = "") ->
          productGrid_click (Some btn) st = st)
    /\ (forall targetClasses,
          cartSection_click (Some None) targetClasses st = st
          /\ cartSection_click (Some (Some "")) targetClasses st = st)
    /\ (forall targetClasses,
          JS.contains targetClasses "confirm-order-btn" = false ->
          cartSection_click None targetClasses st = st).
Proof.
  intros st. split; [reflexivity|]. split; [|split; [|split]].
  - intros btn H. unfold productGrid_click. rewrite H. reflexivity.
  - intros btn i card Hi Hnth Hname. unfold productGrid_click.
    rewrite Hi, Hnth. unfold card_id.
    destruct Hname as [->|(text & -> & Htrim)]; simpl; [reflexivity|].
    rewrite Htrim. reflexivity.
  - intros targetClasses. split; reflexivity.
  - intros targetClasses H. unfold cartSection_click. rewrite H. reflexivity.
Qed.

(** ** What a click can do to the entries *)

Lemma in_update_found p f l (x : CartItem) :
  In x (update_found p f l) -> In x l \/ exists y, In y l /\ x = f y.
Proof.
  induction l as [|y l IH]; simpl; [tauto|].
  destruct (p y); simpl.
  - intros [<-|H]; [right; exists y; auto | auto].
  - intros [<-|H]; [auto|].
    destruct (IH H) as [H'|(z & Hz & ->)]; [auto | right; exists z; auto].
Qed.

Lemma map_id_filter pid l :
  map id (filter (has_other_id pid) l)
  = filter (fun s => negb (s =? pid)%string) (map id l).
Proof.
  induction l as [|x l IH]; simpl; [reflexivity|].
  unfold has_other_id at 1. destruct (id x =? pid)%string; simpl;
    rewrite IH; reflexivity.
Qed.

(** X14. A click never changes the id, the name, the price or the image of
    an entry, and never reorders the entries.  After any click, every entry
    of the cart is an entry of the cart before with, at most, another
    quantity, or it is a new entry with quantity 1 whose id was not in the
    cart; and the ids of the cart are the ids before in the same order,
    with the entries of one id taken out, or with one new id at the end, or
    none at all after a start-new-order click. *)
Theorem clicks_change_only_quantities :
  forall (st : State) (e : Event),
    (forall item',
        In item' (cart (handle st e)) ->
        (exists item, In item (cart st) /\ same_product item item')
        \/ (quantity item' = 1 /\ ~ In (id item') (map id (cart st))))
    /\ (map id (cart (handle st e)) = map id (cart st)
        \/ (exists pid,
               map id (cart (handle st e))
               = filter (fun s => negb (s =? pid)%string) (map id (cart st)))
        \/ (exists pid,
               ~ In pid (map id (cart st))
               /\ map id (cart (handle st e)) = map id (cart st) ++ [pid])
        \/ (e = StartNewOrderClick /\ cart (handle st e) = [])).
Proof.
  intros st e.
  assert (Hsame : forall item, same_product item item)
    by (intros item; repeat split).
  assert (Hset : forall q item, same_product item (set_quantity q item))
    by (intros q item; repeat split).
  assert (Hupd : forall cardId q item',
             In item' (update_found (has_id cardId) (set_quantity q) (cart st)) ->
             exists item, In item (cart st) /\ same_product item item').
  { intros cardId q item' Hin. apply in_update_found in Hin.
    destruct Hin as [Hin|(y & Hy & ->)]; eauto. }
  assert (Hfil : forall pid item',
             In item' (filter (has_other_id pid) (cart st)) ->
             exists item, In item (cart st) /\ same_product item item').
  { intros pid item' Hin. apply filter_In in Hin. exists item'.
    split; [tauto | apply Hsame]. }
  destruct e as [target|removeBtn targetClasses|]; simpl.
  - destruct (cart_productGrid_click target st)
      as [->|(btn & i & card & cardId & _ & _ & Hnth & Hid & Hne & H)].
    { split; [intros item' Hin; left; eauto | left; reflexivity]. }
    destruct H as [(item & Hfind & _ & ->)
                  |[(item & Hfind & _ & _ & _ & ->)
                  |[(item & _ & _ & _ & _ & ->)
                  |(Hfind & _ & _ & ->)]]].
    + split; [intros item' Hin; left; eauto|].
      left. apply map_id_update_found. reflexivity.
    + split; [intros item' Hin; left; eauto|].
      left. apply map_id_update_found. reflexivity.
    + split; [intros item' Hin; left; eauto|].
      right. left. exists cardId. apply map_id_filter.
    + rewrite (cart_addToCart _ _ _ _ Hnth Hid Hne).
      apply find_has_id_none in Hfind. split.
      * intros item' Hin. apply in_app_iff in Hin.
        destruct Hin as [Hin|[<-|[]]]; [left; eauto | right; auto].
      * right. right. left. exists cardId.
        split; [assumption|]. rewrite map_app. reflexivity.
  - destruct (cart_cartSection_click removeBtn targetClasses st)
      as [->|(productId & _ & _ & ->)].
    + split; [intros item' Hin; left; eauto | left; reflexivity].
    + split; [intros item' Hin; left; eauto|].
      right. left. exists productId. apply map_id_filter.
  - rewrite cart_resetOrder. split; [intros item' []|].
    right. right. right. auto.
Qed.

(** X15. The two displays of a card compose as two modes: showing a
    quantity over a quantity already shown only changes the number;
    resetting after showing, or resetting twice, is resetting once; and
    showing a quantity on a card that was reset hides the button again.
    Neither function changes the name, the price or the image of the
    card. *)
Theorem button_state_transitions :
  forall (q1 q2 : Z) (card : Card),
    updateButtonState q2 (updateButtonState q1 card) = updateButtonState q2 card
    /\ resetButtonState (updateButtonState q1 card) = resetButtonState card
    /\ resetButtonState (resetButtonState card) = resetButtonState card
    /\ shows_add (resetButtonState card) = true
    /\ shows_add (updateButtonState q1 card) = false
    /\ updateButtonState q1 (resetButtonState card)
       = updateButtonState q1
           (resetButtonState (updateButtonState q2 card))
    /\ button (updateButtonState q1 (resetButtonState card))
       = option_map (fun _ => display_none) (button card)
    /\ card_markup (updateButtonState q1 card) = card_markup card
    /\ card_markup (resetButtonState card) = card_markup card.
Proof.
  intros q1 q2 card.
  split; [apply updateButtonState_twice|].
  split; [apply resetButtonState_updateButtonState|].
  split; [apply resetButtonState_twice|].
  split; [apply shows_add_resetButtonState|].
  split.
  { unfold shows_add. rewrite quantity_selector_updateButtonState. reflexivity. }
  split; [rewrite resetButtonState_updateButtonState; reflexivity|].
  split.
  { unfold updateButtonState, resetButtonState. simpl.
    destruct (button card); reflexivity. }
  split; [apply card_markup_updateButtonState | apply card_markup_resetButtonState].
Qed.

(** ** The item count and the order total, click by click *)



(** X17. For every state whose cart has at most one entry per id and an
    entry for the id of a card: a click on the card's decrement control
    lowers the sum of the quantities by 1, whether the entry stays or goes,
    and a click on a remove control that carries the id lowers it by the
    quantity of the entry; the cart panel shows the new sum. *)
Theorem decrement_and_remove_counts :
  forall (st : State) (btn : Button) (i : nat) (card : Card) (pid : string)
         (targetClasses : list string) (l1 l2 : list CartItem) (item : CartItem),
    closest_card btn = Some i ->
    nth_error (cards st) i = Some card ->
    card_id card = Some pid -> pid <> "" ->
    JS.contains (classList btn) "increment-btn" = false ->
    JS.contains (classList btn) "decrement-btn" = true ->
    cart st = l1 ++ item :: l2 -> id item = pid ->
    NoDup (map id (cart st)) ->
    let decremented := productGrid_click (Some btn) st in
    let removed := cartSection_click (Some (Some pid)) targetClasses st in
    item_count (cart decremented) = item_count (cart st) - 1
    /\ panel_count (cartSection decremented) = Some (item_count (cart st) - 1)
    /\ item_count (cart removed) = item_count (cart st) - quantity item
    /\ panel_count (cartSection removed)
       = Some (item_count (cart st) - quantity item).
Proof.
  intros st btn i card pid targetClasses l1 l2 item Hi Hnth Hid Hne Hinc Hdec
    Hsplit Hitem Hnd decremented removed.
  rewrite Hsplit in Hnd. subst pid.
  destruct (find_split_NoDup _ _ _ Hnd) as [Hfind Hupd].
  rewrite <- Hsplit in Hfind.
  assert (Hcount : item_count (cart st)
                   = item_count l1 + quantity item + item_count l2)
    by (rewrite Hsplit, item_count_app; simpl; lia).
  assert (Hdecremented :
            item_count (cart decremented) = item_count (cart st) - 1
            /\ panel_count (cartSection decremented)
               = Some (item_count (cart decremented))).
  { unfold decremented.
    rewrite (grid_decrement_eq _ _ _ _ _ _ Hi Hnth Hid Hne Hinc Hdec Hfind).
    destruct (quantity item - 1 =? 0) eqn:E;
      rewrite panel_count_updateCart, cart_updateCart; simpl;
      (split; [|reflexivity]).
    - apply Z.eqb_eq in E. rewrite Hsplit at 1.
      rewrite (filter_has_other_id_split _ _ _ Hnd), item_count_app. lia.
    - rewrite Hsplit at 1. rewrite Hupd, item_count_app. simpl. lia. }
  assert (Hremoved :
            item_count (cart removed) = item_count (cart st) - quantity item
            /\ panel_count (cartSection removed)
               = Some (item_count (cart removed))).
  { assert (Hcart : cart removed = l1 ++ l2).
    { unfold removed. rewrite (cart_remove_click _ _ _ (or_introl Hne)).
      rewrite Hsplit. apply filter_has_other_id_split. assumption. }
    split; [rewrite Hcart, item_count_app; lia|].
    unfold removed, cartSection_click.
    pose proof Hne as Hne'. apply String.eqb_neq in Hne'. rewrite Hne'.
    rewrite panel_count_updateCart, cart_updateCart. reflexivity. }
  destruct Hdecremented as [H1 H2]. destruct Hremoved as [H3 H4].
  rewrite H2, H4, H1, H3. auto.
Qed.

(** ** The further properties at concrete inputs *)

Lemma increment_click_witness :
  JS.contains (classList (both_button 0)) "decrement-btn" = true
  /\ item_count (cart (productGrid_click (Some (both_button 0)) page_with_order))
     = item_count (cart page_with_order) + 1
  /\ panel_count
       (cartSection (productGrid_click (Some (both_button 0)) page_with_order))
     = Some 4
  /\ productGrid_click (Some (increment_button 0)) page = page.
Proof.
  assert ("Waffle" <> "") as Hne by discriminate.
  destruct (increment_click page_with_order (both_button 0) 0%nat
              (updateButtonState 2 waffle) "Waffle"
              eq_refl eq_refl eq_refl Hne eq_refl)
    as (Hfound & _).
  destruct (increment_click page (increment_button 0) 0%nat waffle "Waffle"
              eq_refl eq_refl eq_refl Hne eq_refl)
    as (_ & Habsent).
  destruct (Hfound (set_quantity 2 (new_item "Waffle" waffle)) eq_refl)
    as (_ & Hcount & Hpanel & _).
  split; [reflexivity|]. split; [exact Hcount|]. split; [|exact (Habsent eq_refl)].
  rewrite Hpanel. reflexivity.
Defined.

Lemma increment_decrement_round_trip_witness :
  cart (productGrid_click (Some (decrement_button 0))
          (productGrid_click (Some (increment_button 0)) page_with_order))
  = cart page_with_order
  /\ cart (productGrid_click (Some (increment_button 0))
             (productGrid_click (Some (decrement_button 0)) page_with_order))
     = cart page_with_order.
Proof.
  assert ("Waffle" <> "") as Hne by discriminate.
  assert (quantity (set_quantity 2 (new_item "Waffle" waffle)) <> 0) as Hq
    by discriminate.
  assert (quantity (set_quantity 2 (new_item "Waffle" waffle)) <> 1) as Hq1
    by discriminate.
  destruct (increment_decrement_round_trip page_with_order
              (increment_button 0) (decrement_button 0) 0%nat
              (updateButtonState 2 waffle) "Waffle"
              (set_quantity 2 (new_item "Waffle" waffle))
              eq_refl eq_refl eq_refl eq_refl Hne eq_refl eq_refl eq_refl
              eq_refl Hq)
    as (Hup & _ & Hdown).
  split; [exact Hup | exact (proj1 (Hdown Hq1))].
Defined.


Lemma findProductCardById_first_match_witness :
  findProductCardById "Vanilla Bean Creme Brulee" page = Some 1%nat
  /\ (exists card,
         nth_error (cards page) 1 = Some card
         /\ card_id card = Some "Vanilla Bean Creme Brulee")
  /\ findProductCardById "Tiramisu" page = None.
Proof.
  destruct (findProductCardById_first_match page "Vanilla Bean Creme Brulee")
    as (Hfound & _).
  destruct (Hfound 1%nat eq_refl) as (card & Hnth & Hid & _).
  split; [reflexivity|]. split; [exists card; auto | reflexivity].
Defined.

Lemma remove_click_resets_card_witness :
  findProductCardById "Waffle" page_with_order = Some 0%nat
  /\ option_map shows_add
       (nth_error
          (cards (cartSection_click (Some (Some "Waffle")) [] page_with_order))
          0)
     = Some true
  /\ nth_error
       (cards (cartSection_click (Some (Some "Waffle")) [] page_with_order)) 1
     = nth_error (cards page_with_order) 1.
Proof.
  assert ("Waffle" <> "") as Hne by discriminate.
  destruct (remove_click_resets_card page_with_order "Waffle" [] Hne)
    as (Hfound & _).
  destruct (Hfound 0%nat eq_refl)
    as ((card & _ & _ & Hcard & Hadd & _) & Hother).
  split; [reflexivity|]. split.
  - rewrite Hcard. simpl. rewrite Hadd. reflexivity.
  - apply Hother. discriminate.
Defined.

Lemma entries_come_from_cards_witness :
  In (new_item "Vanilla Bean Creme Brulee" brulee) (cart page_with_order)
  /\ findProductCardById "Vanilla Bean Creme Brulee" page_with_order <> None.
Proof.
  assert (Hin : In (new_item "Vanilla Bean Creme Brulee" brulee)
                  (cart page_with_order))
    by (right; left; reflexivity).
  destruct (entries_come_from_cards [waffle; brulee] (PageMarkup (Some false))
              modal_of_page
              [ProductGridClick (Some (add_button 0));
               ProductGridClick (Some (increment_button 0));
               ProductGridClick (Some (add_button 1))]
              (new_item "Vanilla Bean Creme Brulee" brulee) Hin)
    as (_ & _ & _ & _ & Hcard).
  split; [exact Hin | exact Hcard].
Defined.

Lemma cards_mirror_cart_witness :
  NoDup (card_ids [waffle; brulee])
  /\ Forall (fun c => shows_add c = true) [waffle; brulee]
  /\ (forall j c,
         nth_error (cards page_with_order) j = Some c ->
         shows_add c = true <-> quantity_selector c = None).
Proof.
  assert (Hnd : NoDup (card_ids [waffle; brulee])).
  { change (NoDup ["Waffle"; "Vanilla Bean Creme Brulee"]).
    constructor; [intros [H|[]]; discriminate|].
    constructor; [intros []|constructor]. }
  assert (Hadd : Forall (fun c => shows_add c = true) [waffle; brulee])
    by (repeat constructor).
  destruct (cards_mirror_cart [waffle; brulee] (PageMarkup (Some false))
              modal_of_page
              [ProductGridClick (Some (add_button 0));
               ProductGridClick (Some (increment_button 0));
               ProductGridClick (Some (add_button 1))] Hnd Hadd)
    as (Hcards & _).
  split; [exact Hnd|]. split; [exact Hadd|].
  intros j c Hc. exact (proj2 (proj2 (Hcards j c Hc))).
Defined.

Lemma panel_always_shows_cart_witness :
  cart page_with_order <> []
  /\ panel_count (cartSection page_with_order) = Some 3
  /\ panel_total (cartSection page_with_order) = Some (toFixed 20 2).
Proof.
  assert (Hne : cart page_with_order <> []) by discriminate.
  destruct (panel_always_shows_cart [waffle; brulee] (PageMarkup (Some false))
              modal_of_page
              [ProductGridClick (Some (add_button 0));
               ProductGridClick (Some (increment_button 0));
               ProductGridClick (Some (add_button 1))])
    as (Hfull & _).
  destruct (Hfull Hne) as (Hcount & Htotal & _).
  split; [exact Hne|]. split.
  - etransitivity; [exact Hcount|]. reflexivity.
  - etransitivity; [exact Htotal|]. reflexivity.
Defined.

Lemma modal_is_written_only_on_confirm_and_reset_witness :
  modal_total
    (modalOverlay
       (handle (showConfirmationModal page_with_order)
          (ProductGridClick (Some (increment_button 0)))))
  = Some (toFixed 20 2)
  /\ panel_total
       (cartSection
          (handle (showConfirmationModal page_with_order)
             (ProductGridClick (Some (increment_button 0)))))
     = Some (toFixed 26.5 2).
Proof.
  assert (H1 : forall targetClasses,
             ProductGridClick (Some (increment_button 0))
             <> CartSectionClick None targetClasses)
    by (intros targetClasses; discriminate).
  assert (H2 : ProductGridClick (Some (increment_button 0)) <> StartNewOrderClick)
    by discriminate.
  rewrite (modal_is_written_only_on_confirm_and_reset
             (showConfirmationModal page_with_order)
             (ProductGridClick (Some (increment_button 0))) H1 H2).
  split; reflexivity.
Defined.

Lemma missed_clicks_change_nothing_witness :
  (exists text, cart_name blank_card = Some text /\ JS.trim text = "")
  /\ productGrid_click (Some (add_button 0)) blank_page = blank_page.
Proof.
  assert (Hblank : exists text,
             cart_name blank_card = Some text /\ JS.trim text = "")
    by (eexists; split; reflexivity).
  destruct (missed_clicks_change_nothing blank_page) as (_ & _ & Hmiss & _).
  split; [exact Hblank|].
  exact (Hmiss (add_button 0) 0%nat blank_card eq_refl eq_refl (or_intror Hblank)).
Defined.

Lemma clicks_change_only_quantities_witness :
  map id (cart (handle page_with_order (CartSectionClick (Some (Some "Waffle")) [])))
  = ["Vanilla Bean Creme Brulee"]
  /\ (forall item',
         In item'
           (cart (handle page_with_order
                    (ProductGridClick (Some (increment_button 1))))) ->
         (exists item, In item (cart page_with_order) /\ same_product item item')
         \/ (quantity item' = 1
             /\ ~ In (id item') (map id (cart page_with_order)))).
Proof.
  destruct (clicks_change_only_quantities page_with_order
              (ProductGridClick (Some (increment_button 1))))
    as (Hentries & _).
  split; [reflexivity | exact Hentries].
Defined.


Lemma decrement_and_remove_counts_witness :
  item_count (cart page_with_order) = 3
  /\ item_count
       (cart (productGrid_click (Some (decrement_button 0)) page_with_order))
     = 3 - 1
  /\ item_count
       (cart (cartSection_click (Some (Some "Waffle")) [] page_with_order))
     = 3 - 2.
Proof.
  assert ("Waffle" <> "") as Hne by discriminate.
  assert (Hnd : NoDup (map id (cart page_with_order))).
  { change (NoDup ["Waffle"; "Vanilla Bean Creme Brulee"]).
    constructor; [intros [H|[]]; discriminate|].
    constructor; [intros []|constructor]. }
  destruct (decrement_and_remove_counts page_with_order (decrement_button 0)
              0%nat (updateButtonState 2 waffle) "Waffle" []
              [] [new_item "Vanilla Bean Creme Brulee" brulee]
              (set_quantity 2 (new_item "Waffle" waffle))
              eq_refl eq_refl eq_refl Hne eq_refl eq_refl eq_refl eq_refl Hnd)
    as (Hdec & _ & Hrem & _).
  split; [reflexivity|]. split; [exact Hdec | exact Hrem].
Defined.

(** ** The totals of the cart panel and of the modal *)

Lemma panel_total_updateCart st :
  panel_total (cartSection (updateCart st))
  = match cart st with
    | [] => None
    | _ :: _ => Some (toFixed (grand_total (cart st)) 2)
    end.
Proof.
  rewrite cartSection_updateCart.
  destruct (cart st); [|reflexivity].
  destruct (cartSection st) as [[b|]| |]; reflexivity.
Qed.

Lemma shows_empty_cart_totals p :
  shows_empty_cart p = true -> panel_count p = Some 0 /\ panel_total p = None.
Proof.
  destruct p as [[[|]|]| |]; simpl; intros H; try discriminate; auto.
Qed.

(** The count and the total that the cart panel shows in a state reached
    from the markup of the page. *)
Lemma reachable_panel_totals es cs o m :
  let st := run es (initial cs (PageMarkup o) m) in
  (forall count,
      panel_count (cartSection st) = Some count -> count = item_count (cart st))
  /\ (forall total,
        panel_total (cartSection st) = Some total ->
        total = toFixed (grand_total (cart st)) 2)
  /\ (cart st <> [] ->
      panel_count (cartSection st) = Some (item_count (cart st))
      /\ panel_total (cartSection st) = Some (toFixed (grand_total (cart st)) 2)).
Proof.
  intros st.
  destruct (reachable_panel es cs (PageMarkup o) m) as [[Hc Hp]|[[Hc Hp]|[Hc Hp]]];
    fold st in Hc, Hp.
  - rewrite Hp, Hc. simpl. split; [|split].
    + destruct o as [[|]|]; intros count H; try discriminate.
      injection H as <-. reflexivity.
    + intros total H. discriminate.
    + intros H. contradiction.
  - destruct (shows_empty_cart_totals _ Hp) as [H1 H2].
    rewrite H1, H2, Hc. simpl. split; [|split].
    + intros count H. injection H as <-. reflexivity.
    + intros total H. discriminate.
    + intros H. contradiction.
  - rewrite Hp. simpl. split; [|split].
    + intros count H. injection H as <-. reflexivity.
    + intros total H. injection H as <-. reflexivity.
    + auto.
Qed.

(** C4. For every cart state, the grand total of the cart panel that
    [updateCart] renders is the sum over all entries of price times
    quantity, shown with [toFixed(2)], and its item count is the sum of all
    quantities: the panel shows the count for every cart, it shows the total
    for every cart that is not empty, and whatever total it shows is that
    sum.  Both are computed again from the whole cart at every mutation:
    every click that changes the cart leaves the panel rendered from the
    new cart, so that in every state reached from the markup of the page
    whatever count and total the panel shows are the sums over the cart of
    that state, and a cart that is not empty has both shown. *)
Theorem panel_shows_totals :
  (forall st : State,
      let panel := cartSection (updateCart st) in
      panel_count panel = Some (item_count (cart st))
      /\ (forall total,
            panel_total panel = Some total ->
            total = toFixed (grand_total (cart st)) 2)
      /\ (cart st <> [] ->
          panel_total panel = Some (toFixed (grand_total (cart st)) 2))
      /\ (forall e : Event,
            cart (handle st e) <> cart st ->
            cartSection (handle st e) = cartSection (updateCart (handle st e))))
  /\ (forall (cs : list Card) (o : option bool) (m : Modal) (es : list Event),
        let st := run es (initial cs (PageMarkup o) m) in
        (forall count,
            panel_count (cartSection st) = Some count ->
            count = item_count (cart st))
        /\ (forall total,
              panel_total (cartSection st) = Some total ->
              total = toFixed (grand_total (cart st)) 2)
        /\ (cart st <> [] ->
            panel_count (cartSection st) = Some (item_count (cart st))
            /\ panel_total (cartSection st)
               = Some (toFixed (grand_total (cart st)) 2))).
Proof.
  split.
  - intros st panel. unfold panel.
    rewrite panel_count_updateCart, panel_total_updateCart.
    split; [reflexivity|]. split; [|split].
    + intros total H. destruct (cart st); [discriminate|].
      injection H as <-. reflexivity.
    + intros Hne. destruct (cart st); [contradiction | reflexivity].
    + intros e. apply rendered_handle.
  - intros cs o m es. apply reachable_panel_totals.
Qed.

Lemma showConfirmationModal_missing st :
  modal_order_summary (modalOverlay st) = Missing
  \/ modal_total_price (modalOverlay st) = Missing ->
  showConfirmationModal st = st.
Proof.
  unfold showConfirmationModal. cbv zeta.
  destruct (fold_left _ _ _) as [? ?].
  intros [-> | ->]; [reflexivity|].
  destruct (modal_order_summary (modalOverlay st)); reflexivity.
Qed.

(** A modal without summary element never gets a total written. *)
Lemma modal_unwritten_handle st e :
  (modal_order_summary (modalOverlay st) = Missing ->
   modal_total (modalOverlay st) = None) ->
  modal_order_summary (modalOverlay (handle st e)) = Missing ->
  modal_total (modalOverlay (handle st e)) = None.
Proof.
  intros K. destruct e as [target|removeBtn targetClasses|]; cbn [handle].
  - rewrite modalOverlay_productGrid_click. exact K.
  - destruct (cartSection_click_cases removeBtn targetClasses st)
      as [->|[(productId & _ & _ & ->)|(_ & ->)]]; [exact K| |].
    + rewrite modalOverlay_updateCart.
      destruct (findProductCardById productId st); exact K.
    + destruct (showConfirmationModal_cases st) as [->|[Hs Ht]]; [exact K|].
      rewrite (modalOverlay_showConfirmationModal st Hs Ht). discriminate.
  - unfold resetOrder. rewrite modalOverlay_updateCart. exact K.
Qed.

Lemma modal_unwritten_run es st :
  (modal_order_summary (modalOverlay st) = Missing ->
   modal_total (modalOverlay st) = None) ->
  modal_order_summary (modalOverlay (run es st)) = Missing ->
  modal_total (modalOverlay (run es st)) = None.
Proof.
  revert st. induction es as [|e es IH]; intros st K; simpl; [exact K|].
  apply IH. apply modal_unwritten_handle. exact K.
Qed.

(** C8. For every cart state, the grand total that the confirmation
    modal computes and shows is the grand total that the cart panel
    computes and shows for the same state, and the modal has one row per
    entry, in the order of the cart, which is the order of the rows of the
    cart panel: row by row the same name, quantity, unit price and line
    total.  The modal shows its total and rows when its summary and total
    elements exist; whenever both the modal and the panel show a total the
    two are equal, and for a cart that is not empty both do.  So, in every
    state reached from the markup of the page, after the click on the
    confirm control whatever totals the modal and the cart panel show are
    equal. *)
Theorem modal_total_matches_panel :
  (forall st : State,
      modal_order_summary (modalOverlay st) <> Missing ->
      modal_total_price (modalOverlay st) <> Missing ->
      let shown := modalOverlay (showConfirmationModal st) in
      let panel := cartSection (updateCart st) in
      (forall tm tp,
          modal_total shown = Some tm -> panel_total panel = Some tp -> tm = tp)
      /\ modal_total shown = Some (toFixed (grand_total (cart st)) 2)
      /\ (cart st <> [] -> modal_total shown = panel_total panel)
      /\ modal_display shown = display_flex
      /\ List.length (modal_rows shown) = List.length (cart st)
      /\ map modal_row_text (modal_rows shown) = map entry_text (cart st)
      /\ map row_text (panel_rows panel) = map modal_row_text (modal_rows shown))
  /\ (forall (cs : list Card) (o : option bool) (has_summary has_total : bool)
             (d : Display) (es : list Event) (targetClasses : list string),
        JS.contains targetClasses "confirm-order-btn" = true ->
        let st := run es (initial cs (PageMarkup o)
                            (page_modal has_summary has_total d)) in
        let st' := cartSection_click None targetClasses st in
        st' = showConfirmationModal st
        /\ (forall tm tp,
              modal_total (modalOverlay st') = Some tm ->
              panel_total (cartSection st') = Some tp -> tm = tp)
        /\ (modal_order_summary (modalOverlay st) <> Missing ->
            modal_total_price (modalOverlay st) <> Missing ->
            cart st <> [] ->
            modal_total (modalOverlay st') = panel_total (cartSection st')
            /\ modal_total (modalOverlay st')
               = Some (toFixed (grand_total (cart st)) 2))).
Proof.
  split.
  - intros st Hs Ht shown panel. unfold shown, panel.
    rewrite (modalOverlay_showConfirmationModal st Hs Ht),
      panel_total_updateCart, cartSection_updateCart.
    unfold modal_total, modal_rows.
    cbn [modal_total_price modal_order_summary modal_display].
    split; [|split; [|split; [|split; [|split; [|split]]]]].
    + intros tm tp Hm Hp. destruct (cart st); [discriminate|]. congruence.
    + reflexivity.
    + intros Hne. destruct (cart st); [contradiction | reflexivity].
    + reflexivity.
    + apply length_map.
    + apply modal_row_text_modal_row.
    + rewrite modal_row_text_modal_row.
      destruct (cart st) as [|item l] eqn:E.
      * destruct (cartSection st) as [[b|]| |]; reflexivity.
      * exact (row_text_cart_row (item :: l)).
  - intros cs o has_summary has_total d es targetClasses Hconfirm st st'.
    assert (Hst' : st' = showConfirmationModal st)
      by (unfold st', cartSection_click; rewrite Hconfirm; reflexivity).
    destruct (reachable_panel_totals es cs o (page_modal has_summary has_total d))
      as (_ & Htotal & Hfull).
    fold st in Htotal, Hfull.
    assert (K : modal_order_summary (modalOverlay st) = Missing ->
                modal_total (modalOverlay st) = None).
    { apply modal_unwritten_run. intros _. unfold modal_total. simpl.
      destruct has_total; reflexivity. }
    split; [exact Hst'|]. rewrite Hst', cartSection_showConfirmationModal.
    split.
    + intros tm tp Hm Hp. rewrite (Htotal tp Hp).
      destruct (modal_order_summary (modalOverlay st)) eqn:Hs.
      * rewrite showConfirmationModal_missing in Hm by (left; exact Hs).
        rewrite (K eq_refl) in Hm. discriminate.
      * destruct (modal_total_price (modalOverlay st)) eqn:Ht.
        -- rewrite showConfirmationModal_missing in Hm by (right; exact Ht).
           unfold modal_total in Hm. rewrite Ht in Hm. discriminate.
        -- rewrite modalOverlay_showConfirmationModal in Hm
             by (rewrite ?Hs, ?Ht; discriminate).
           unfold modal_total in Hm. simpl in Hm. congruence.
        -- rewrite modalOverlay_showConfirmationModal in Hm
             by (rewrite ?Hs, ?Ht; discriminate).
           unfold modal_total in Hm. simpl in Hm. congruence.
      * destruct (modal_total_price (modalOverlay st)) eqn:Ht.
        -- rewrite showConfirmationModal_missing in Hm by (right; exact Ht).
           unfold modal_total in Hm. rewrite Ht in Hm. discriminate.
        -- rewrite modalOverlay_showConfirmationModal in Hm
             by (rewrite ?Hs, ?Ht; discriminate).
           unfold modal_total in Hm. simpl in Hm. congruence.
        -- rewrite modalOverlay_showConfirmationModal in Hm
             by (rewrite ?Hs, ?Ht; discriminate).
           unfold modal_total in Hm. simpl in Hm. congruence.
    + intros Hs Ht Hne.
      rewrite (modalOverlay_showConfirmationModal st Hs Ht).
      destruct (Hfull Hne) as [_ Hp]. rewrite Hp. split; reflexivity.
Qed.

Lemma panel_shows_totals_witness :
  cart (handle page (ProductGridClick (Some (add_button 0)))) <> cart page
  /\ panel_total (cartSection (handle page (ProductGridClick (Some (add_button 0)))))
     = Some (toFixed 6.5 2)
  /\ panel_count (cartSection (updateCart page_with_order)) = Some 3
  /\ panel_total (cartSection (updateCart page_with_order)) = Some (toFixed 20 2)
  /\ panel_total (cartSection page_with_order) = Some (toFixed 20 2).
Proof.
  assert (Hchanged :
            cart (handle page (ProductGridClick (Some (add_button 0)))) <> cart page)
    by discriminate.
  assert (Hne : cart page_with_order <> []) by discriminate.
  destruct panel_shows_totals as (Hany & Hreached).
  destruct (Hany page) as (_ & _ & _ & Hrendered).
  destruct (Hany page_with_order) as (Hcount & _ & Htotal & _).
  destruct (Hreached [waffle; brulee] (Some false) modal_of_page
              [ProductGridClick (Some (add_button 0));
               ProductGridClick (Some (increment_button 0));
               ProductGridClick (Some (add_button 1))])
    as (_ & _ & Hshown).
  split; [exact Hchanged|]. split; [|split; [|split]].
  - rewrite (Hrendered _ Hchanged). reflexivity.
  - rewrite Hcount. reflexivity.
  - rewrite (Htotal Hne). reflexivity.
  - etransitivity; [exact (proj2 (Hshown Hne))|]. reflexivity.
Defined.

Lemma modal_total_matches_panel_witness :
  cart page_with_order <> []
  /\ modal_total (modalOverlay (showConfirmationModal page_with_order))
     = Some (toFixed 20 2)
  /\ panel_total (cartSection (updateCart page_with_order)) = Some (toFixed 20 2)
  /\ map modal_item_name
       (modal_rows (modalOverlay (showConfirmationModal page_with_order)))
     = ["Waffle"; "Vanilla Bean Creme Brulee"]
  /\ modal_total
       (modalOverlay
          (cartSection_click None ["confirm-order-btn"] page_with_order))
     = panel_total
         (cartSection
            (cartSection_click None ["confirm-order-btn"] page_with_order)).
Proof.
  assert (H1 : cart page_with_order <> []) by discriminate.
  assert (H2 : modal_order_summary (modalOverlay page_with_order) <> Missing)
    by discriminate.
  assert (H3 : modal_total_price (modalOverlay page_with_order) <> Missing)
    by discriminate.
  destruct modal_total_matches_panel as (Hany & Hreached).
  destruct (Hany page_with_order H2 H3)
    as (_ & Htotal & Hsame & _ & _ & Hrows & _).
  destruct (Hreached [waffle; brulee] (Some false) true true display_none
              [ProductGridClick (Some (add_button 0));
               ProductGridClick (Some (increment_button 0));
               ProductGridClick (Some (add_button 1))]
              ["confirm-order-btn"] eq_refl)
    as (_ & _ & Hclick).
  split; [exact H1|]. split; [|split; [|split]].
  - rewrite Htotal. reflexivity.
  - rewrite <- (Hsame H1), Htotal. reflexivity.
  - apply (f_equal (map (fun t => fst (fst (fst t))))) in Hrows.
    rewrite !map_map in Hrows. etransitivity; [exact Hrows|]. reflexivity.
  - exact (proj1 (Hclick H2 H3 H1)).
Defined.
